(** * hybridAI_agent_with_tool.py: the local lab summarizer tool

    A shallow embedding of [_strip_code_fences] and [summarize_lab_report]
    from [src/hybridAI_agent_with_tool.py], and the properties of the
    specification that concern them.

    Modelling conventions.
    - A Python [str] is a list of characters, each character standing for one
      code point in the range U+0000..U+00FF.  On that range [isspace] and
      [lower_char] are the tables of CPython 3 ([str.isspace], [str.lower]).
    - A value produced by the [json] module (and hence every Python value the
      tool handles) is a term of [json].
    - Python exceptions are the constructors of [exn]; a computation that may
      raise has type [result A].
    - The HTTP exchange and the JSON decoder belong to libraries, not to the
      program: they are the variables of the section [Tool].  The sent
      requests are recorded in a log threaded through the tool. *)

From Stdlib Require Import List Ascii String ZArith Bool Arith Lia DecimalString.
Import ListNotations.

Set Implicit Arguments.

(** ** Python strings *)

Definition str := list ascii.

(** A string literal of the source. *)
Definition lit (s : string) : str := list_ascii_of_string s.

(** [str.isspace] on one character. *)
Definition isspace (c : ascii) : bool :=
  let n := nat_of_ascii c in
  ((9 <=? n) && (n <=? 13)) || ((28 <=? n) && (n <=? 32))
  || (n =? 133) || (n =? 160).

(** [str.lower] on one character: A-Z and the upper-case letters of the
    Latin-1 supplement (U+00C0..U+00DE without the multiplication sign). *)
Definition lower_char (c : ascii) : ascii :=
  let n := nat_of_ascii c in
  if ((65 <=? n) && (n <=? 90))
     || ((192 <=? n) && (n <=? 222) && negb (n =? 215))
  then ascii_of_nat (n + 32) else c.

Definition lower (s : str) : str := map lower_char s.

Fixpoint lstrip (s : str) : str :=
  match s with
  | c :: t => if isspace c then lstrip t else s
  | [] => []
  end.

Definition rstrip (s : str) : str := rev (lstrip (rev s)).

Definition strip (s : str) : str := rstrip (lstrip s).

Fixpoint startswith (s prefix : str) {struct prefix} : bool :=
  match prefix, s with
  | [], _ => true
  | p :: prefix', c :: s' => Ascii.eqb c p && startswith s' prefix'
  | _ :: _, [] => false
  end.

Definition endswith (s suffix : str) : bool :=
  startswith (rev s) (rev suffix).

(** The slice [s[n:]]. *)
Definition slice_from (n : nat) (s : str) : str := skipn n s.

(** The slice [s[:-n]] for [n > 0]. *)
Definition slice_drop_last (n : nat) (s : str) : str :=
  firstn (List.length s - n) s.

(** ** The sanitizer *)

Definition fence : str := lit "```".

Definition _strip_code_fences (text : str) : str :=
  let stripped := strip text in
  if startswith stripped fence then
    (* remove leading ``` *)
    let stripped := lstrip (slice_from 3 stripped) in
    (* optional language tag like "json" *)
    let stripped :=
      if startswith (lower stripped) (lit "json")
      then lstrip (slice_from 4 stripped)
      else stripped in
    (* remove trailing ``` *)
    if endswith stripped fence
    then rstrip (slice_drop_last 3 stripped)
    else stripped
  else stripped.

(** ** JSON values

    The values of Python's [json] module: [None], [bool], [int], [float],
    [str], [list] and [dict] with string keys.  Floating point is not
    modelled: a [float] is kept as the literal that denotes it.  A [dict]
    keeps its items in insertion order. *)

#[local] Unset Elimination Schemes.

Inductive json : Type :=
| JNull
| JBool (b : bool)
| JInt (n : Z)
| JFloat (literal : str)
| JString (s : str)
| JArray (items : list json)
| JObject (members : list (str * json)).

#[local] Set Elimination Schemes.

Definition str_eqb (a b : str) : bool :=
  if list_eq_dec ascii_dec a b then true else false.

(** [d.get(k)] on the items of a dict. *)
Fixpoint dict_get (k : str) (kv : list (str * json)) : option json :=
  match kv with
  | [] => None
  | (k', v) :: rest => if str_eqb k' k then Some v else dict_get k rest
  end.

(** [d[k] = v]: an existing key keeps its position. *)
Fixpoint dict_set (k : str) (v : json) (kv : list (str * json))
  : list (str * json) :=
  match kv with
  | [] => [(k, v)]
  | (k', v') :: rest =>
      if str_eqb k' k then (k', v) :: rest else (k', v') :: dict_set k v rest
  end.

(** ** Exceptions *)

Inductive exn : Type :=
| ConnectionError                       (* requests.exceptions.ConnectionError *)
| Timeout                               (* requests.exceptions.Timeout *)
| HTTPError (status : Z)                (* requests.exceptions.HTTPError *)
| RequestsJSONDecodeError (doc : str)   (* requests.exceptions.JSONDecodeError *)
| JSONDecodeError (doc : str)           (* json.JSONDecodeError, with its [doc] *)
| KeyError (key : json)
| IndexError
| TypeError
| AttributeError.

Inductive result (A : Type) : Type :=
| Returned (a : A)
| Raised (e : exn).

Arguments Returned {A} a.
Arguments Raised {A} e.

Definition and_then {A B} (r : result A) (k : A -> result B) : result B :=
  match r with
  | Returned a => k a
  | Raised e => Raised e
  end.

Notation "r >>= k" := (and_then r k) (at level 50, left associativity).

(** ** Subscripting, [v[k]] *)

Inductive subscript : Type :=
| Key (k : str)
| Index (i : Z).

(** The position a sequence of length [len] gives to index [i]. *)
Definition seq_index (len : nat) (i : Z) : option nat :=
  let i' := if (i <? 0)%Z then (i + Z.of_nat len)%Z else i in
  if ((0 <=? i') && (i' <? Z.of_nat len))%Z then Some (Z.to_nat i') else None.

Definition getitem (v : json) (i : subscript) : result json :=
  match v, i with
  | JObject kv, Key k =>
      match dict_get k kv with
      | Some x => Returned x
      | None => Raised (KeyError (JString k))
      end
  | JObject _, Index n => Raised (KeyError (JInt n))
  | JArray xs, Index n =>
      match seq_index (List.length xs) n with
      | Some p =>
          match nth_error xs p with
          | Some x => Returned x
          | None => Raised IndexError
          end
      | None => Raised IndexError
      end
  | JString s, Index n =>
      match seq_index (List.length s) n with
      | Some p =>
          match nth_error s p with
          | Some c => Returned (JString [c])
          | None => Raised IndexError
          end
      | None => Raised IndexError
      end
  | _, _ => Raised TypeError
  end.

(** [sep.join(items)]: every item has to be a [str]. *)
Fixpoint str_join (sep : str) (items : list json) : result str :=
  match items with
  | [] => Returned []
  | JString s :: rest =>
      match rest with
      | [] => Returned s
      | _ => str_join sep rest >>= fun t => Returned (s ++ sep ++ t)
      end
  | _ :: _ => Raised TypeError
  end.

(** ** [json.dumps] with its default arguments

    [ensure_ascii] is on: every character outside U+0020..U+007E, the double
    quote and the backslash are escaped.  Items are separated by a comma and
    a space, a key from its value by a colon and a space. *)

Definition dq : ascii := ascii_of_nat 34.
Definition backslash : ascii := ascii_of_nat 92.

Definition hex_digit (n : nat) : ascii :=
  if n <? 10 then ascii_of_nat (48 + n) else ascii_of_nat (87 + n).

Definition escape_char (c : ascii) : str :=
  let n := nat_of_ascii c in
  if n =? 34 then [backslash; dq]
  else if n =? 92 then [backslash; backslash]
  else if n =? 10 then backslash :: lit "n"
  else if n =? 13 then backslash :: lit "r"
  else if n =? 9 then backslash :: lit "t"
  else if n =? 12 then backslash :: lit "f"
  else if n =? 8 then backslash :: lit "b"
  else if (32 <=? n) && (n <=? 126) then [c]
  else backslash :: lit "u00" ++ [hex_digit (n / 16); hex_digit (n mod 16)].

Definition dumps_str (s : str) : str :=
  dq :: flat_map escape_char s ++ [dq].

Definition dumps_int (n : Z) : str :=
  lit (NilEmpty.string_of_int (Z.to_int n)).

Fixpoint json_dumps (v : json) : str :=
  match v with
  | JNull => lit "null"
  | JBool true => lit "true"
  | JBool false => lit "false"
  | JInt n => dumps_int n
  | JFloat literal => literal
  | JString s => dumps_str s
  | JArray items =>
      lit "["
      ++ (fix dumps_items (xs : list json) : str :=
            match xs with
            | [] => []
            | x :: rest =>
                json_dumps x
                ++ match rest with
                   | [] => []
                   | _ :: _ => lit ", " ++ dumps_items rest
                   end
            end) items
      ++ lit "]"
  | JObject members =>
      lit "{"
      ++ (fix dumps_members (kv : list (str * json)) : str :=
            match kv with
            | [] => []
            | (k, x) :: rest =>
                dumps_str k ++ lit ": " ++ json_dumps x
                ++ match rest with
                   | [] => []
                   | _ :: _ => lit ", " ++ dumps_members rest
                   end
            end) members
      ++ lit "}"
  end.

(** ** A reference JSON decoder

    [json.loads] belongs to the standard library and is a variable of the
    section [Tool] below.  [reference_decoder] is a recursive-descent decoder
    for JSON texts over the modelled characters, used to run the tool on
    concrete replies: insignificant whitespace is space, tab, line feed and
    carriage return; a repeated key keeps its first position and its last
    value; a control character inside a string is an error; an escape
    [\uXXXX] above U+00FF is outside the modelled characters and not
    decoded. *)

Definition json_ws (c : ascii) : bool :=
  let n := nat_of_ascii c in
  (n =? 32) || (n =? 9) || (n =? 10) || (n =? 13).

Fixpoint skip_ws (s : str) : str :=
  match s with
  | c :: t => if json_ws c then skip_ws t else s
  | [] => []
  end.

Definition is_digit (c : ascii) : bool :=
  let n := nat_of_ascii c in (48 <=? n) && (n <=? 57).

Definition hex_value (c : ascii) : option nat :=
  let n := nat_of_ascii c in
  if (48 <=? n) && (n <=? 57) then Some (n - 48)
  else if (97 <=? n) && (n <=? 102) then Some (n - 87)
  else if (65 <=? n) && (n <=? 70) then Some (n - 55)
  else None.

(** The characters of a string up to its closing quote; [acc] holds the
    decoded characters in reverse. *)
Fixpoint scan_string (s : str) (acc : str) : option (str * str) :=
  match s with
  | [] => None
  | c :: t =>
      let n := nat_of_ascii c in
      if n =? 34 then Some (rev acc, t)
      else if n =? 92 then
        match t with
        | e :: t' =>
            let m := nat_of_ascii e in
            if m =? 34 then scan_string t' (dq :: acc)
            else if m =? 92 then scan_string t' (backslash :: acc)
            else if m =? 47 then scan_string t' (e :: acc)
            else if m =? 98 then scan_string t' (ascii_of_nat 8 :: acc)
            else if m =? 102 then scan_string t' (ascii_of_nat 12 :: acc)
            else if m =? 110 then scan_string t' (ascii_of_nat 10 :: acc)
            else if m =? 114 then scan_string t' (ascii_of_nat 13 :: acc)
            else if m =? 116 then scan_string t' (ascii_of_nat 9 :: acc)
            else if m =? 117 then
              match t' with
              | h1 :: h2 :: h3 :: h4 :: t'' =>
                  match hex_value h1, hex_value h2, hex_value h3, hex_value h4 with
                  | Some 0, Some 0, Some a, Some b =>
                      scan_string t'' (ascii_of_nat (16 * a + b) :: acc)
                  | _, _, _, _ => None
                  end
              | _ => None
              end
            else None
        | [] => None
        end
      else if n <? 32 then None
      else scan_string t (c :: acc)
  end.

Fixpoint span_digits (s : str) : str * str :=
  match s with
  | c :: t =>
      if is_digit c then let (ds, r) := span_digits t in (c :: ds, r)
      else ([], s)
  | [] => ([], [])
  end.

Definition digits_value (ds : str) : Z :=
  fold_left (fun a c => (10 * a + Z.of_nat (nat_of_ascii c - 48))%Z) ds 0%Z.

(** A number: an optional minus sign, then either a single zero or a
    non-zero digit followed by digits, then an optional fraction (a dot and
    at least one digit), then an optional exponent (e or E, an optional sign
    and at least one digit).  It is an [int] when it has neither fraction nor
    exponent. *)
Definition scan_number (s : str) : option (json * str) :=
  let (sign, s1) :=
    match s with
    | c :: t => if Ascii.eqb c "-" then ([c], t) else ([], s)
    | [] => ([], s)
    end in
  let (int_part, r1) :=
    match s1 with
    | c :: t => if Ascii.eqb c "0" then ([c], t) else span_digits s1
    | [] => ([], s1)
    end in
  match int_part with
  | [] => None
  | _ :: _ =>
      let (frac, r2) :=
        match r1 with
        | c :: t =>
            if Ascii.eqb c "." then
              match span_digits t with
              | ([], _) => ([], r1)
              | (ds, r) => (c :: ds, r)
              end
            else ([], r1)
        | [] => ([], r1)
        end in
      let (expo, r3) :=
        match r2 with
        | c :: t =>
            if Ascii.eqb c "e" || Ascii.eqb c "E" then
              let (esign, t') :=
                match t with
                | d :: u =>
                    if Ascii.eqb d "-" || Ascii.eqb d "+" then ([d], u)
                    else ([], t)
                | [] => ([], t)
                end in
              match span_digits t' with
              | ([], _) => ([], r2)
              | (ds, r) => (c :: esign ++ ds, r)
              end
            else ([], r2)
        | [] => ([], r2)
        end in
      match frac, expo with
      | [], [] =>
          let v := digits_value int_part in
          Some (JInt (match sign with [] => v | _ :: _ => - v end)%Z, r3)
      | _, _ => Some (JFloat (sign ++ int_part ++ frac ++ expo), r3)
      end
  end.

Definition scan_word (word : str) (v : json) (s : str) : option (json * str) :=
  if startswith s word then Some (v, skipn (List.length word) s) else None.

Fixpoint parse_value (fuel : nat) (s : str) : option (json * str) :=
  match fuel with
  | 0 => None
  | S fuel' =>
      match s with
      | [] => None
      | c :: t =>
          let n := nat_of_ascii c in
          if n =? 34 then
            match scan_string t [] with
            | Some (x, r) => Some (JString x, r)
            | None => None
            end
          else if n =? 123 then
            match skip_ws t with
            | c' :: r =>
                if Ascii.eqb c' "}" then Some (JObject [], r)
                else parse_members fuel' (c' :: r) []
            | [] => None
            end
          else if n =? 91 then
            match skip_ws t with
            | c' :: r =>
                if Ascii.eqb c' "]" then Some (JArray [], r)
                else parse_elements fuel' (c' :: r) []
            | [] => None
            end
          else if n =? 110 then scan_word (lit "null") JNull s
          else if n =? 116 then scan_word (lit "true") (JBool true) s
          else if n =? 102 then scan_word (lit "false") (JBool false) s
          else if n =? 78 then scan_word (lit "NaN") (JFloat (lit "NaN")) s
          else if n =? 73 then
            scan_word (lit "Infinity") (JFloat (lit "Infinity")) s
          else if startswith s (lit "-Infinity") then
            scan_word (lit "-Infinity") (JFloat (lit "-Infinity")) s
          else scan_number s
      end
  end

with parse_elements (fuel : nat) (s : str) (acc : list json)
  : option (json * str) :=
  match fuel with
  | 0 => None
  | S fuel' =>
      match parse_value fuel' s with
      | None => None
      | Some (v, r) =>
          match skip_ws r with
          | c :: r' =>
              if Ascii.eqb c "," then parse_elements fuel' (skip_ws r') (v :: acc)
              else if Ascii.eqb c "]" then Some (JArray (rev (v :: acc)), r')
              else None
          | [] => None
          end
      end
  end

with parse_members (fuel : nat) (s : str) (acc : list (str * json))
  : option (json * str) :=
  match fuel with
  | 0 => None
  | S fuel' =>
      match s with
      | c :: t =>
          if negb (Ascii.eqb c dq) then None else
          match scan_string t [] with
          | None => None
          | Some (k, r) =>
              match skip_ws r with
              | c1 :: r1 =>
                  if negb (Ascii.eqb c1 ":") then None else
                  match parse_value fuel' (skip_ws r1) with
                  | None => None
                  | Some (v, r2) =>
                      match skip_ws r2 with
                      | c2 :: r3 =>
                          if Ascii.eqb c2 "," then
                            parse_members fuel' (skip_ws r3) (dict_set k v acc)
                          else if Ascii.eqb c2 "}" then
                            Some (JObject (dict_set k v acc), r3)
                          else None
                      | [] => None
                      end
                  end
              | [] => None
              end
          end
      | [] => None
      end
  end.

Definition reference_decoder (s : str) : option json :=
  match parse_value (2 * List.length s + 2) (skip_ws s) with
  | Some (v, r) =>
      match skip_ws r with
      | [] => Some v
      | _ :: _ => None
      end
  | None => None
  end.

(** ** Configuration constants *)

Local Open Scope string_scope.

Definition nl : string := String (ascii_of_nat 10) "".
Definition q : string := String dq "".

Definition FOUNDRY_LOCAL_BASE : str := lit "http://127.0.0.1:52403".

Definition FOUNDRY_LOCAL_CHAT_URL : str :=
  (FOUNDRY_LOCAL_BASE ++ lit "/v1/chat/completions")%list.

Definition FOUNDRY_LOCAL_MODEL_ID : str := lit "Phi-4-mini-instruct-cuda-gpu:5".

Definition LOCAL_LAB_SYSTEM_PROMPT : str :=
  strip (lit (
   nl ++ "You are a medical lab report summarizer running locally on the user's machine." ++ nl ++
   "" ++ nl ++
   "You MUST respond with ONLY one valid JSON object. Do not include any explanation," ++ nl ++
   "backticks, markdown, or text outside the JSON. The JSON must have this shape:" ++ nl ++
   "" ++ nl ++
   "{" ++ nl ++
   "  " ++ q ++ "overall_assessment" ++ q ++ ": " ++ q ++ "<short plain English summary>" ++ q ++ "," ++ nl ++
   "  " ++ q ++ "notable_abnormal_results" ++ q ++ ": [" ++ nl ++
   "    {" ++ nl ++
   "      " ++ q ++ "test" ++ q ++ ": " ++ q ++ "string" ++ q ++ "," ++ nl ++
   "      " ++ q ++ "value" ++ q ++ ": " ++ q ++ "string" ++ q ++ "," ++ nl ++
   "      " ++ q ++ "unit" ++ q ++ ": " ++ q ++ "string or null" ++ q ++ "," ++ nl ++
   "      " ++ q ++ "reference_range" ++ q ++ ": " ++ q ++ "string or null" ++ q ++ "," ++ nl ++
   "      " ++ q ++ "severity" ++ q ++ ": " ++ q ++ "mild|moderate|severe" ++ q ++ "" ++ nl ++
   "    }" ++ nl ++
   "  ]" ++ nl ++
   "}" ++ nl ++
   "" ++ nl ++
   "If you are unsure about a field, use null. Do NOT invent values." ++ nl)).

Local Close Scope string_scope.

(** ** The HTTP exchange *)

(** The arguments of one call of [requests.post]. *)
Record Request : Type := {
  url : str;
  headers : list (str * str);
  data : str;
  timeout : Z
}.

(** What the tool reads of a [requests.Response]: the status code and the
    decoded body. *)
Record Response : Type := {
  status_code : Z;
  text : str
}.

(** [Response.raise_for_status]: a client error (4xx) or a server error
    (5xx) raises [HTTPError]. *)
Definition raise_for_status (resp : Response) : result unit :=
  let s := status_code resp in
  if ((400 <=? s) && (s <? 500))%Z then Raised (HTTPError s)
  else if ((500 <=? s) && (s <? 600))%Z then Raised (HTTPError s)
  else Returned tt.

(** ** The tool monad: exceptions, and the log of the [requests.post] calls *)

Definition Tool (A : Type) : Type := list Request -> result A * list Request.

Definition ret {A} (a : A) : Tool A := fun log => (Returned a, log).

Definition bind {A B} (m : Tool A) (k : A -> Tool B) : Tool B :=
  fun log =>
    match m log with
    | (Returned a, log') => k a log'
    | (Raised e, log') => (Raised e, log')
    end.

Definition lift {A} (r : result A) : Tool A := fun log => (r, log).

Notation "x <- m ;; k" := (bind m (fun x => k))
  (at level 61, m at next level, right associativity).

(** [_strip_code_fences(v)] on an arbitrary value: the first statement,
    [text.strip()], needs a [str]. *)
Definition call_strip_code_fences (v : json) : result str :=
  match v with
  | JString s => Returned (_strip_code_fences s)
  | _ => Raised AttributeError
  end.

(** Line 131, [data["choices"][0]["message"]["content"]]. *)
Definition choice_content (data : json) : result json :=
  getitem data (Key (lit "choices")) >>= fun choices =>
  getitem choices (Index 0) >>= fun choice =>
  getitem choice (Key (lit "message")) >>= fun message =>
  getitem message (Key (lit "content")).

(** Lines 134-139: a list of parts is joined, anything else is taken as it
    is.  The generator yields [part.get("text", "")] for the parts that are
    dicts. *)
Definition content_to_text (content : json) : result json :=
  match content with
  | JArray parts =>
      str_join []
        (flat_map
           (fun part =>
              match part with
              | JObject kv =>
                  [match dict_get (lit "text") kv with
                   | Some t => t
                   | None => JString []
                   end]
              | _ => []
              end) parts) >>= fun s => Returned (JString s)
  | _ => Returned content
  end.

(** Lines 105-113. *)
Definition request_payload (lab_text : str) : json :=
  JObject
    [ (lit "model", JString FOUNDRY_LOCAL_MODEL_ID);
      (lit "messages",
        JArray
          [ JObject [ (lit "role", JString (lit "system"));
                      (lit "content", JString LOCAL_LAB_SYSTEM_PROMPT) ];
            JObject [ (lit "role", JString (lit "user"));
                      (lit "content", JString lab_text) ] ]);
      (lit "max_tokens", JInt 256);
      (lit "temperature", JFloat (lit "0.2")) ].

(** ** Notions of the specification

    The definitions of this part are not in the source: they give the words
    of the specification a meaning, so that its sentences can be compared
    with what the tool does. *)

(** The failure taxonomy of the specification (section 7), read over the
    exceptions that leave the tool: transport failures are
    [UnavailableError], a failure status is [ServiceError], a response of
    the wrong shape is [ProtocolError], and output of the model that does not
    parse is [MalformedOutputError].  No exception of the program stands for
    [SchemaViolationError]. *)
Inductive failure_kind : Type :=
| UnavailableError
| ServiceError
| ProtocolError
| MalformedOutputError.

Definition failure_kind_of (e : exn) : failure_kind :=
  match e with
  | ConnectionError | Timeout => UnavailableError
  | HTTPError _ => ServiceError
  | RequestsJSONDecodeError _ | KeyError _ | IndexError | TypeError
  | AttributeError => ProtocolError
  | JSONDecodeError _ => MalformedOutputError
  end.

(** The schema of section 3 of the specification. *)
Definition is_string (v : option json) : bool :=
  match v with
  | Some (JString _) => true
  | _ => false
  end.

Definition is_nonempty_string (v : option json) : bool :=
  match v with
  | Some (JString (_ :: _)) => true
  | _ => false
  end.

Definition is_optional_string (v : option json) : bool :=
  match v with
  | None | Some JNull | Some (JString _) => true
  | _ => false
  end.

Definition is_severity (v : option json) : bool :=
  match v with
  | Some (JString s) =>
      str_eqb s (lit "mild") || str_eqb s (lit "moderate")
      || str_eqb s (lit "severe")
  | _ => false
  end.

Definition spec_finding_ok (f : json) : bool :=
  match f with
  | JObject kv =>
      is_string (dict_get (lit "label") kv)
      && is_string (dict_get (lit "value") kv)
      && is_optional_string (dict_get (lit "unit") kv)
      && is_optional_string (dict_get (lit "reference_range") kv)
      && is_severity (dict_get (lit "severity") kv)
  | _ => false
  end.

Definition spec_schema_ok (v : json) : bool :=
  match v with
  | JObject kv =>
      is_nonempty_string (dict_get (lit "overall_assessment") kv)
      && match dict_get (lit "notable_findings") kv with
         | Some (JArray findings) => forallb spec_finding_ok findings
         | _ => false
         end
  | _ => false
  end.

(** A text of whitespace only; a text with no whitespace at its left end,
    and at its right end. *)
Definition blank (w : str) : Prop := forallb isspace w = true.

Definition starts_solid (s : str) : Prop :=
  match s with
  | c :: _ => isspace c = false
  | [] => True
  end.

Definition ends_solid (s : str) : Prop := starts_solid (rev s).

(** The text of a JSON object: it opens with a brace and closes with one. *)
Definition object_text (t : str) : Prop :=
  exists body, t = lit "{" ++ body ++ lit "}".

(** A payload in a fenced block, with and without the language tag. *)
Definition line_feed : str := [ascii_of_nat 10].

Definition fenced_with_tag (payload : str) : str :=
  lit "```json" ++ line_feed ++ payload ++ line_feed ++ lit "```".

Definition fenced (payload : str) : str :=
  lit "```" ++ line_feed ++ payload ++ line_feed ++ lit "```".



(** A fragment is well-typed when its ["text"] entry, if it has one, is a
    string. *)
Definition well_typed_fragment (part : json) : bool :=
  match part with
  | JObject kv =>
      match dict_get (lit "text") kv with
      | Some (JString _) | None => true
      | Some _ => false
      end
  | _ => true
  end.

(** The letters of the language tag, in either case. *)
Definition letter (lo up c : ascii) : bool := Ascii.eqb c lo || Ascii.eqb c up.

Definition begins_with_tag (s : str) : bool :=
  match s with
  | c1 :: c2 :: c3 :: c4 :: _ =>
      letter "j" "J" c1 && letter "s" "S" c2 && letter "o" "O" c3
      && letter "n" "N" c4
  | _ => false
  end.

(** The token at the head of a text: its characters up to the first
    whitespace character. *)
Fixpoint next_token (s : str) : str :=
  match s with
  | c :: t => if isspace c then [] else c :: next_token t
  | [] => []
  end.

Definition is_language_tag (token : str) : bool :=
  match token with
  | [_; _; _; _] => begins_with_tag token
  | _ => false
  end.

(** The sanitizer as the specification words it: the tag is removed when the
    token that follows the marker is the language tag. *)
Definition sanitize_by_token (text : str) : str :=
  let stripped := strip text in
  if startswith stripped fence then
    let stripped := lstrip (slice_from 3 stripped) in
    let stripped :=
      if is_language_tag (next_token stripped)
      then lstrip (slice_from 4 stripped)
      else stripped in
    if endswith stripped fence
    then rstrip (slice_drop_last 3 stripped)
    else stripped
  else stripped.

(** ** Endpoints and replies for the worked examples *)

Definition replying (status : Z) (body : str) : Request -> result Response :=
  fun _ => Returned {| status_code := status; text := body |}.

Definition failing (e : exn) : Request -> result Response :=
  fun _ => Raised e.

(** A response of the chat-completions shape with one choice, and its
    body. *)
Definition chat_completion_data (content : json) : json :=
  JObject
    [ (lit "choices",
        JArray
          [ JObject
              [ (lit "message",
                  JObject [ (lit "role", JString (lit "assistant"));
                            (lit "content", content) ]) ] ]) ].

Definition chat_completion (content : json) : str :=
  json_dumps (chat_completion_data content).

(** The payloads of the end-to-end scenarios A and B of the specification
    (the unit of scenario B written in ASCII). *)
Definition scenario_A_payload : json :=
  JObject [ (lit "overall_assessment", JString (lit "ok"));
            (lit "notable_findings", JArray []) ].

Definition scenario_B_payload : json :=
  JObject
    [ (lit "overall_assessment", JString (lit "x"));
      (lit "notable_findings",
        JArray
          [ JObject [ (lit "label", JString (lit "WBC"));
                      (lit "value", JString (lit "14.5"));
                      (lit "unit", JString (lit "x10^3/uL"));
                      (lit "reference_range", JString (lit "4.0-10.0"));
                      (lit "severity", JString (lit "extreme")) ] ]) ].

(** The text of the payload of scenario A, with whitespace around it. *)
Definition scenario_A_text : str :=
  lit "  " ++ json_dumps scenario_A_payload ++ line_feed.

Definition example_lab_text : str := lit "WBC 14.5 x10^3/uL (4.0 - 10.0) HIGH".

(** A reply fenced with a tag that is longer than the language tag, and a
    reply in fragments. *)
Definition jsonl_fenced : str :=
  lit "```jsonl" ++ line_feed ++ lit "{}" ++ line_feed ++ lit "```".


(** A response with two candidate completions. *)
Definition two_choices (content1 content2 : json) : json :=
  JObject
    [ (lit "choices",
        JArray
          [ JObject [ (lit "message", JObject [ (lit "content", content1) ]) ];
            JObject [ (lit "message", JObject [ (lit "content", content2) ]) ] ]) ].

(** A response body that is an object without any field. *)
Definition empty_object_body : str := lit "{}".

(** The statuses of the successful class of HTTP, 2xx. *)
Definition success_status (s : Z) : bool := ((200 <=? s) && (s <? 300))%Z.

(** ** Further notions *)

(** A printable character of ASCII, U+0020..U+007E. *)
Definition printable (c : ascii) : bool :=
  let n := nat_of_ascii c in (32 <=? n) && (n <=? 126).

Section Tool.

(** [json.loads] and [Response.json] decode with the same decoder; [None]
    stands for a text that is not well-formed JSON. *)
Variable json_decode : str -> option json.

(** The local endpoint, as [requests.post] presents it: a response, or an
    exception of the [requests] library. *)
Variable endpoint : Request -> result Response.

Definition json_loads (s : str) : result json :=
  match json_decode s with
  | Some v => Returned v
  | None => Raised (JSONDecodeError s)
  end.

Definition response_json (resp : Response) : result json :=
  match json_decode (text resp) with
  | Some v => Returned v
  | None => Raised (RequestsJSONDecodeError (text resp))
  end.

Definition requests_post (u : str) (h : list (str * str)) (d : str)
    (t : Z) : Tool Response :=
  fun log =>
    let req := {| url := u; headers := h; data := d; timeout := t |} in
    (endpoint req, log ++ [req]).

(** [summarize_lab_report]; the [print] calls, which write to the standard
    output and cannot raise here, are left out. *)
Definition summarize_lab_report (lab_text : str) : Tool json :=
  let payload := request_payload lab_text in
  let headers := [(lit "Content-Type", lit "application/json")] in
  resp <- requests_post FOUNDRY_LOCAL_CHAT_URL headers
            (json_dumps payload) 120 ;;
  _ <- lift (raise_for_status resp) ;;
  data <- lift (response_json resp) ;;
  (* OpenAI-compatible shape: choices[0].message.content *)
  content <- lift (choice_content data) ;;
  (* Handle string vs list-of-parts *)
  content_text <- lift (content_to_text content) ;;
  (* Strip ```json fences if present, then parse JSON *)
  cleaned <- lift (call_strip_code_fences content_text) ;;
  lab_summary <- lift (json_loads cleaned) ;;
  ret lab_summary.

(** The request the tool sends, and what the tool makes of a response and
    of one choice of a response; these name parts of
    [summarize_lab_report] for the statements below. *)
Definition the_request (lab_text : str) : Request :=
  {| url := FOUNDRY_LOCAL_CHAT_URL;
     headers := [(lit "Content-Type", lit "application/json")];
     data := json_dumps (request_payload lab_text);
     timeout := 120 |}.

Definition read_text (content_text : json) : result json :=
  call_strip_code_fences content_text >>= json_loads.

Definition read_choice (choice : json) : result json :=
  getitem choice (Key (lit "message")) >>= fun message =>
  getitem message (Key (lit "content")) >>= fun content =>
  content_to_text content >>= read_text.

Definition read_response (resp : Response) : result json :=
  raise_for_status resp >>= fun _ =>
  response_json resp >>= fun data =>
  choice_content data >>= fun content =>
  content_to_text content >>= read_text.

(** The endpoint answers the request for [lab_text] with a response that
    passes [raise_for_status] and decodes to [data]. *)
Definition reply_data (lab_text : str) (data : json) : Prop :=
  exists resp,
    endpoint (the_request lab_text) = Returned resp
    /\ raise_for_status resp = Returned tt
    /\ json_decode (text resp) = Some data.

(** ... and the content field of its first choice is [content]. *)
Definition reply_content (lab_text : str) (content : json) : Prop :=
  exists data,
    reply_data lab_text data /\ choice_content data = Returned content.

(** ... and the text of the reply is [txt]. *)
Definition reply_text (lab_text : str) (txt : str) : Prop :=
  exists content,
    reply_content lab_text content
    /\ content_to_text content = Returned (JString txt).

(** ** Lemmas on strings *)

Lemma startswith_app (p r : str) : startswith (p ++ r) p = true.
Proof.
  induction p as [|c p IH]; simpl; [reflexivity|].
  now rewrite Ascii.eqb_refl.
Qed.

Lemma startswith_inv (s p : str) :
  startswith s p = true -> exists r, s = p ++ r.
Proof.
  revert s; induction p as [|c p IH]; intros s H.
  - now exists s.
  - destruct s as [|d s]; simpl in H; [discriminate|].
    apply andb_prop in H as [Hc Hs].
    apply Ascii.eqb_eq in Hc; subst d.
    destruct (IH _ Hs) as [r ->]. now exists r.
Qed.

Lemma startswith_iff (s p : str) :
  startswith s p = true <-> exists r, s = p ++ r.
Proof.
  split; [apply startswith_inv|].
  intros [r ->]. apply startswith_app.
Qed.

Lemma endswith_iff (s p : str) :
  endswith s p = true <-> exists c, s = c ++ p.
Proof.
  unfold endswith. rewrite startswith_iff. split.
  - intros [r H]. exists (rev r).
    rewrite <- (rev_involutive s), H, rev_app_distr, rev_involutive.
    reflexivity.
  - intros [c ->]. exists (rev c). apply rev_app_distr.
Qed.

Lemma slice_from_app (p r : str) : slice_from (List.length p) (p ++ r) = r.
Proof.
  unfold slice_from. induction p; simpl; auto.
Qed.

Lemma slice_drop_last_app (c p : str) :
  slice_drop_last (List.length p) (c ++ p) = c.
Proof.
  unfold slice_drop_last. rewrite length_app.
  replace (List.length c + List.length p - List.length p)
    with (List.length c + 0) by lia.
  rewrite firstn_app_2. simpl. apply app_nil_r.
Qed.

(** Whitespace at both ends. *)

Lemma lstrip_solid (s : str) : starts_solid s -> lstrip s = s.
Proof.
  destruct s as [|c s]; simpl; [reflexivity|]. now intros ->.
Qed.

Lemma lstrip_blank_app (w s : str) : blank w -> lstrip (w ++ s) = lstrip s.
Proof.
  unfold blank. induction w as [|c w IH]; simpl; [reflexivity|].
  intros H. apply andb_prop in H as [-> H]. auto.
Qed.

Lemma lstrip_app_solid (s r : str) :
  s <> [] -> starts_solid s -> lstrip (s ++ r) = s ++ r.
Proof.
  destruct s as [|c s]; [congruence|]. simpl. now intros _ ->.
Qed.

Lemma rstrip_solid (s : str) : ends_solid s -> rstrip s = s.
Proof.
  unfold rstrip, ends_solid. intros H.
  rewrite lstrip_solid by assumption. apply rev_involutive.
Qed.

Lemma rstrip_app_blank (s w : str) : blank w -> rstrip (s ++ w) = rstrip s.
Proof.
  unfold rstrip. intros H. rewrite rev_app_distr, lstrip_blank_app; auto.
  unfold blank in *. rewrite forallb_forall in *.
  intros x Hx. apply H. now apply in_rev.
Qed.

Lemma strip_solid (s : str) : starts_solid s -> ends_solid s -> strip s = s.
Proof.
  intros H1 H2. unfold strip. rewrite lstrip_solid by assumption.
  now apply rstrip_solid.
Qed.

(** [lower] followed by [startswith] compares the four letters without
    regard to case. *)
Lemma lower_char_letter (c : ascii) :
  Ascii.eqb (lower_char c) "j" = letter "j" "J" c
  /\ Ascii.eqb (lower_char c) "s" = letter "s" "S" c
  /\ Ascii.eqb (lower_char c) "o" = letter "o" "O" c
  /\ Ascii.eqb (lower_char c) "n" = letter "n" "N" c.
Proof.
  destruct c as [[] [] [] [] [] [] [] []]; vm_compute; auto.
Qed.

Lemma lower_startswith_json (s : str) :
  startswith (lower s) (lit "json") = begins_with_tag s.
Proof.
  destruct s as [|c1 [|c2 [|c3 [|c4 s]]]]; try reflexivity.
  - cbn [lower map lit list_ascii_of_string startswith].
    now rewrite andb_false_r.
  - cbn [lower map lit list_ascii_of_string startswith].
    now rewrite !andb_false_r.
  - cbn [lower map lit list_ascii_of_string startswith].
    now rewrite !andb_false_r.
  - cbn [lower map lit list_ascii_of_string startswith begins_with_tag].
    destruct (lower_char_letter c1) as (-> & _ & _ & _).
    destruct (lower_char_letter c2) as (_ & -> & _ & _).
    destruct (lower_char_letter c3) as (_ & _ & -> & _).
    destruct (lower_char_letter c4) as (_ & _ & _ & ->).
    now rewrite andb_true_r, !andb_assoc.
Qed.

(** ** The sanitizer *)

Lemma begins_with_tag_split (s : str) :
  begins_with_tag s = true ->
  exists tag after, s = tag ++ after /\ List.length tag = 4.
Proof.
  destruct s as [|c1 [|c2 [|c3 [|c4 s]]]]; try discriminate.
  intros _. now exists [c1; c2; c3; c4], s.
Qed.

Lemma strip_code_fences_unfenced (text : str) :
  startswith (strip text) fence = false ->
  _strip_code_fences text = strip text.
Proof.
  intros H. unfold _strip_code_fences. now rewrite H.
Qed.

(** What the sanitizer does to a text whose trimmed form opens with the
    marker, in terms of the text that follows the marker. *)
Lemma strip_code_fences_opened (text rest : str) :
  strip text = fence ++ rest ->
  _strip_code_fences text =
    let body :=
      if begins_with_tag (lstrip rest)
      then lstrip (slice_from 4 (lstrip rest))
      else lstrip rest in
    if endswith body fence then rstrip (slice_drop_last 3 body) else body.
Proof.
  intros H. unfold _strip_code_fences.
  rewrite H, startswith_app. cbv zeta.
  replace (slice_from 3 (fence ++ rest)) with rest
    by (symmetry; apply (slice_from_app fence rest)).
  now rewrite !lower_startswith_json.
Qed.

(** A payload without whitespace at its ends, which opens neither with
    the marker nor with the letters of the tag, comes back from the three
    wrappings. *)
Lemma lstrip_starts_solid (s : str) : starts_solid (lstrip s).
Proof.
  induction s as [|c s IH]; cbn [lstrip]; [exact I|].
  destruct (isspace c) eqn:E; [exact IH | exact E].
Qed.

Lemma lstrip_split (s : str) : exists w, blank w /\ s = w ++ lstrip s.
Proof.
  induction s as [|c s (w & Hw & E)]; cbn [lstrip].
  - now exists [].
  - destruct (isspace c) eqn:Hc.
    + exists (c :: w). split.
      * unfold blank. cbn [forallb]. now rewrite Hc.
      * cbn [app]. now f_equal.
    + now exists [].
Qed.

Lemma blank_rev (w : str) : blank w -> blank (rev w).
Proof.
  unfold blank. rewrite !forallb_forall.
  intros H x Hx. apply H. now apply in_rev.
Qed.

Lemma blank_app (w1 w2 : str) : blank w1 -> blank w2 -> blank (w1 ++ w2).
Proof.
  unfold blank. intros H1 H2. now rewrite forallb_app, H1, H2.
Qed.

Lemma rstrip_split (s : str) : exists w, blank w /\ s = rstrip s ++ w.
Proof.
  destruct (lstrip_split (rev s)) as (w & Hw & E).
  exists (rev w). split; [now apply blank_rev|].
  unfold rstrip. now rewrite <- rev_app_distr, <- E, rev_involutive.
Qed.

Lemma starts_solid_prefix (v w : str) : starts_solid (v ++ w) -> starts_solid v.
Proof. destruct v; [exact (fun _ => I) | exact (fun H => H)]. Qed.

(** A text is its trimmed form between two runs of whitespace, and the
    trimmed form has no whitespace at its ends. *)
Lemma strip_split (t : str) :
  exists w1 w2, blank w1 /\ blank w2 /\ t = w1 ++ strip t ++ w2.
Proof.
  destruct (lstrip_split t) as (w1 & H1 & E1).
  destruct (rstrip_split (lstrip t)) as (w2 & H2 & E2).
  exists w1, w2. split; [assumption|]. split; [assumption|].
  unfold strip. now rewrite <- E2.
Qed.

Lemma strip_starts_solid (t : str) : starts_solid (strip t).
Proof.
  destruct (rstrip_split (lstrip t)) as (w & _ & E).
  apply starts_solid_prefix with w. unfold strip. rewrite <- E.
  apply lstrip_starts_solid.
Qed.

Lemma strip_ends_solid (t : str) : ends_solid (strip t).
Proof.
  unfold ends_solid, strip, rstrip. rewrite rev_involutive.
  apply lstrip_starts_solid.
Qed.

Lemma blank_line_feed : blank line_feed.
Proof. reflexivity. Qed.

Lemma strip_fenced (t : str) : strip (fenced t) = fenced t.
Proof.
  apply strip_solid.
  - exact (eq_refl : isspace "`" = false).
  - unfold fenced, ends_solid. rewrite !rev_app_distr.
    exact (eq_refl : isspace "`" = false).
Qed.

Lemma strip_fenced_with_tag (t : str) :
  strip (fenced_with_tag t) = fenced_with_tag t.
Proof.
  apply strip_solid.
  - exact (eq_refl : isspace "`" = false).
  - unfold fenced_with_tag, ends_solid. rewrite !rev_app_distr.
    exact (eq_refl : isspace "`" = false).
Qed.

(** The text between the opening marker (or the tag) and the end: a
    payload [p] with whitespace on both sides, and the closing marker. *)
Lemma fenced_body (p w1 w2 : str) :
  p <> [] -> starts_solid p -> ends_solid p -> blank w1 -> blank w2 ->
  let body := lstrip (w1 ++ p ++ w2 ++ fence) in
  body = p ++ w2 ++ fence
  /\ (if endswith body fence then rstrip (slice_drop_last 3 body) else body)
     = p.
Proof.
  intros Hp H1 H2 B1 B2 body.
  assert (E : body = p ++ w2 ++ fence).
  { unfold body. rewrite lstrip_blank_app by assumption.
    now apply lstrip_app_solid. }
  split; [exact E|].
  rewrite E, app_assoc.
  replace (endswith ((p ++ w2) ++ fence) fence) with true
    by (symmetry; apply endswith_iff; now exists (p ++ w2)).
  change 3 with (List.length fence).
  rewrite slice_drop_last_app, rstrip_app_blank by assumption.
  now apply rstrip_solid.
Qed.

Lemma space_is_no_letter (c : ascii) :
  isspace c = true ->
  letter "s" "S" c = false /\ letter "o" "O" c = false
  /\ letter "n" "N" c = false.
Proof.
  destruct c as [[] [] [] [] [] [] [] []]; vm_compute; auto; discriminate.
Qed.

Lemma begins_with_tag_blank (p w r : str) :
  p <> [] -> blank w -> w <> [] ->
  begins_with_tag (p ++ w ++ r) = begins_with_tag p.
Proof.
  intros Hp Hw Hn.
  destruct w as [|c w]; [congruence|].
  unfold blank in Hw. cbn [forallb] in Hw. apply andb_prop in Hw as [Hc _].
  destruct (space_is_no_letter _ Hc) as (Ls & Lo & Ln).
  destruct p as [|c1 [|c2 [|c3 [|c4 p]]]]; [congruence| | | |reflexivity];
    cbn [app begins_with_tag].
  - destruct (w ++ r) as [|d1 [|d2 x]]; try reflexivity.
    now rewrite Ls, !andb_false_r.
  - destruct (w ++ r) as [|d1 x]; try reflexivity.
    now rewrite Lo, !andb_false_r.
  - now rewrite Ln, !andb_false_r.
Qed.

(** A payload text whose trimmed form opens neither with the marker nor
    with the letters of the tag comes back trimmed from the three
    wrappings. *)
Lemma strip_payload_bare (t : str) :
  startswith (strip t) fence = false -> _strip_code_fences t = strip t.
Proof. apply strip_code_fences_unfenced. Qed.

Lemma strip_payload_fenced (t : str) :
  strip t <> [] -> begins_with_tag (strip t) = false ->
  _strip_code_fences (fenced t) = strip t.
Proof.
  intros Hp Ht.
  destruct (strip_split t) as (w1 & w2 & B1 & B2 & E).
  assert (B1' : blank (line_feed ++ w1))
    by (apply blank_app; [apply blank_line_feed | assumption]).
  assert (B2' : blank (w2 ++ line_feed))
    by (apply blank_app; [assumption | apply blank_line_feed]).
  destruct (fenced_body Hp (strip_starts_solid t) (strip_ends_solid t)
              B1' B2') as [Eb R].
  assert (Er : line_feed ++ t ++ line_feed ++ fence
               = (line_feed ++ w1) ++ strip t ++ (w2 ++ line_feed) ++ fence).
  { rewrite E at 1. now rewrite <- !app_assoc. }
  rewrite (@strip_code_fences_opened _ (line_feed ++ t ++ line_feed ++ fence))
    by apply strip_fenced.
  cbv zeta. rewrite Er, Eb in *.
  rewrite begins_with_tag_blank, Ht; auto.
  now destruct w2.
Qed.

Lemma strip_payload_fenced_with_tag (t : str) :
  strip t <> [] -> _strip_code_fences (fenced_with_tag t) = strip t.
Proof.
  intros Hp.
  destruct (strip_split t) as (w1 & w2 & B1 & B2 & E).
  assert (B1' : blank (line_feed ++ w1))
    by (apply blank_app; [apply blank_line_feed | assumption]).
  assert (B2' : blank (w2 ++ line_feed))
    by (apply blank_app; [assumption | apply blank_line_feed]).
  destruct (fenced_body Hp (strip_starts_solid t) (strip_ends_solid t)
              B1' B2') as [_ R].
  assert (Er : line_feed ++ t ++ line_feed ++ fence
               = (line_feed ++ w1) ++ strip t ++ (w2 ++ line_feed) ++ fence).
  { rewrite E at 1. now rewrite <- !app_assoc. }
  rewrite (@strip_code_fences_opened _
             (lit "json" ++ line_feed ++ t ++ line_feed ++ fence))
    by apply strip_fenced_with_tag.
  cbv zeta.
  change (lstrip (lit "json" ++ line_feed ++ t ++ line_feed ++ fence))
    with (lit "json" ++ line_feed ++ t ++ line_feed ++ fence).
  change (begins_with_tag (lit "json" ++ line_feed ++ t ++ line_feed ++ fence))
    with true.
  cbv iota.
  change (slice_from 4 (lit "json" ++ line_feed ++ t ++ line_feed ++ fence))
    with (line_feed ++ t ++ line_feed ++ fence).
  rewrite Er. exact R.
Qed.

Lemma object_text_shape (p : str) :
  object_text p ->
  p <> [] /\ begins_with_tag p = false /\ startswith p fence = false.
Proof.
  intros [body ->]. repeat split.
  - discriminate.
  - now destruct body as [|c1 [|c2 [|c3 body]]].
Qed.

Lemma json_dumps_object_text (members : list (str * json)) :
  object_text (json_dumps (JObject members)).
Proof.
  unfold object_text. cbn [json_dumps]. eauto.
Qed.

(** C4: a text that, once trimmed, does not begin with the fence marker
    comes back trimmed and otherwise unchanged; and on every string the
    sanitizer returns a string, without raising. *)
Theorem strip_code_fences_total_and_unfenced (text : str) :
  (exists out, call_strip_code_fences (JString text) = Returned out
               /\ out = _strip_code_fences text)
  /\ (startswith (strip text) fence = false ->
      _strip_code_fences text = strip text).
Proof.
  split; [now exists (_strip_code_fences text)
        | apply strip_code_fences_unfenced].
Qed.

(** C9, as amended: when the trimmed text begins with the fence marker,
    the marker and the whitespace after it are removed; then, if and only
    if what follows begins with the letters j, s, o, n in either case
    (whether or not a longer token goes on after them), these four
    characters and the whitespace after them are removed too; then, if the
    remaining text ends with a fence marker, that marker is removed and the
    text is trimmed on the right, and otherwise the remaining text is the
    result. *)
Theorem strip_code_fences_fenced_stages (text rest : str) :
  strip text = fence ++ rest ->
  exists body,
    (begins_with_tag (lstrip rest) = true ->
       exists tag after,
         lstrip rest = tag ++ after /\ List.length tag = 4
         /\ body = lstrip after)
    /\ (begins_with_tag (lstrip rest) = false -> body = lstrip rest)
    /\ (forall core, body = core ++ fence ->
          _strip_code_fences text = rstrip core)
    /\ ((forall core, body <> core ++ fence) ->
          _strip_code_fences text = body).
Proof.
  intros H. rewrite (strip_code_fences_opened _ H). cbv zeta.
  set (body := if begins_with_tag (lstrip rest)
               then lstrip (slice_from 4 (lstrip rest))
               else lstrip rest).
  exists body. repeat split.
  - intros Ht. destruct (begins_with_tag_split _ Ht) as (tag & after & E & L).
    exists tag, after. repeat split; auto.
    unfold body. rewrite Ht, E, <- L. now rewrite slice_from_app.
  - intros Ht. unfold body. now rewrite Ht.
  - intros core E.
    replace (endswith body fence) with true
      by (symmetry; apply endswith_iff; eauto).
    rewrite E. change 3 with (List.length fence).
    now rewrite slice_drop_last_app.
  - intros Hn. destruct (endswith body fence) eqn:E; [|reflexivity].
    apply endswith_iff in E as [core E]. now destruct (Hn core).
Qed.

(** ** The tool *)

Lemma summarize_lab_report_run (lab_text : str) (log : list Request) :
  summarize_lab_report lab_text log =
    (endpoint (the_request lab_text) >>= read_response,
     log ++ [the_request lab_text]).
Proof.
  unfold summarize_lab_report, bind, requests_post, lift, ret.
  fold (the_request lab_text).
  destruct (endpoint (the_request lab_text)) as [resp|e]; [|reflexivity].
  unfold read_response, read_text. cbn [and_then].
  destruct (raise_for_status resp) as [[]|e]; [|reflexivity].
  destruct (response_json resp) as [data|e]; [|reflexivity].
  cbn [and_then].
  destruct (choice_content data) as [content|e]; [|reflexivity].
  cbn [and_then].
  destruct (content_to_text content) as [content_text|e]; [|reflexivity].
  cbn [and_then].
  destruct (call_strip_code_fences content_text) as [cleaned|e];
    [|reflexivity].
  cbn [and_then].
  destruct (json_loads cleaned) as [v|e]; reflexivity.
Qed.

Lemma run_reply_data (lab_text : str) (data : json) (log : list Request) :
  reply_data lab_text data ->
  fst (summarize_lab_report lab_text log) =
    (choice_content data >>= fun content =>
     content_to_text content >>= read_text).
Proof.
  intros (resp & E & S & D).
  rewrite summarize_lab_report_run. cbn [fst].
  rewrite E. cbn [and_then]. unfold read_response, response_json.
  now rewrite S, D.
Qed.

Lemma run_reply_content (lab_text : str) (content : json)
    (log : list Request) :
  reply_content lab_text content ->
  fst (summarize_lab_report lab_text log) =
    (content_to_text content >>= read_text).
Proof.
  intros (data & R & C). rewrite (run_reply_data _ R), C. reflexivity.
Qed.

Lemma run_reply_text (lab_text txt : str) (log : list Request) :
  reply_text lab_text txt ->
  fst (summarize_lab_report lab_text log) =
    json_loads (_strip_code_fences txt).
Proof.
  intros (content & R & T). rewrite (run_reply_content _ R), T. reflexivity.
Qed.

Lemma getitem_raises (v : json) (i : subscript) (e : exn) :
  getitem v i = Raised e -> failure_kind_of e = ProtocolError.
Proof.
  unfold getitem. intros H.
  destruct v, i; try (injection H as <-; reflexivity).
  - destruct (seq_index _ _); [destruct (nth_error _ _)|];
      try discriminate; injection H as <-; reflexivity.
  - destruct (seq_index _ _); [destruct (nth_error _ _)|];
      try discriminate; injection H as <-; reflexivity.
  - destruct (dict_get _ _); try discriminate.
    injection H as <-; reflexivity.
Qed.

Lemma choice_content_raises (data : json) (e : exn) :
  choice_content data = Raised e -> failure_kind_of e = ProtocolError.
Proof.
  unfold choice_content. intros H.
  destruct (getitem data _) as [choices|e1] eqn:E1; cbn [and_then] in H;
    [|injection H as <-; eapply getitem_raises; eassumption].
  destruct (getitem choices _) as [choice|e2] eqn:E2; cbn [and_then] in H;
    [|injection H as <-; eapply getitem_raises; eassumption].
  destruct (getitem choice _) as [message|e3] eqn:E3; cbn [and_then] in H;
    [|injection H as <-; eapply getitem_raises; eassumption].
  eapply getitem_raises; eassumption.
Qed.

Lemma str_join_cons (s : str) (rest : list json) :
  str_join [] (JString s :: rest) =
    (str_join [] rest >>= fun t => Returned (s ++ t)).
Proof.
  destruct rest as [|x rest]; [|reflexivity].
  cbn [str_join and_then]. now rewrite app_nil_r.
Qed.


(** C1, as amended: the tool returns a result exactly when the sanitized
    text of the reply is well-formed, and the result is the parsed value
    itself, whatever fields it has: no schema is checked, so a value that
    misses a required field or has a severity outside the enumeration is
    returned like any other. *)
Theorem summarize_lab_report_returns_parsed_value
    (lab_text : str) (log : list Request) (v : json) :
  fst (summarize_lab_report lab_text log) = Returned v
  <-> exists txt,
        reply_text lab_text txt
        /\ json_decode (_strip_code_fences txt) = Some v.
Proof.
  split.
  - rewrite summarize_lab_report_run. cbn [fst]. intros H.
    destruct (endpoint (the_request lab_text)) as [resp|e] eqn:E;
      [|discriminate]. cbn [and_then] in H.
    unfold read_response, response_json in H.
    destruct (raise_for_status resp) as [[]|e] eqn:S; [|discriminate].
    cbn [and_then] in H.
    destruct (json_decode (text resp)) as [data|] eqn:D; [|discriminate].
    cbn [and_then] in H.
    destruct (choice_content data) as [content|e] eqn:C; [|discriminate].
    cbn [and_then] in H.
    destruct (content_to_text content) as [content_text|e] eqn:T;
      [|discriminate].
    cbn [and_then] in H. unfold read_text in H.
    destruct content_text as [| | | |txt| |]; try discriminate.
    cbn [call_strip_code_fences and_then] in H. unfold json_loads in H.
    destruct (json_decode (_strip_code_fences txt)) as [w|] eqn:L;
      [|discriminate].
    injection H as <-. exists txt. split; [|assumption].
    exists content. split; [|assumption].
    exists data. split; [|assumption].
    exists resp. auto.
  - intros (txt & R & L). rewrite (run_reply_text _ R).
    unfold json_loads. now rewrite L.
Qed.

(** C2: for the text [t] of a payload that conforms to the schema (with or
    without whitespace around it; trimmed, it is the text of an object and
    decodes to the payload [P]), wrapped in a fence with the language tag,
    wrapped in a fence without a tag, or not wrapped, sanitizing and then
    parsing yields [P] in all three cases. *)
Theorem sanitize_then_parse_wrappings (t : str) (P : json) :
  spec_schema_ok P = true ->
  object_text (strip t) ->
  json_decode (strip t) = Some P ->
  read_text (JString (fenced_with_tag t)) = Returned P
  /\ read_text (JString (fenced t)) = Returned P
  /\ read_text (JString t) = Returned P.
Proof.
  intros _ Ht D.
  destruct (object_text_shape Ht) as (Hn & H3 & H4).
  unfold read_text. cbn [call_strip_code_fences and_then].
  rewrite strip_payload_fenced_with_tag, strip_payload_fenced,
    strip_payload_bare by assumption.
  unfold json_loads. rewrite D. auto.
Qed.

(** C5, as amended: a 4xx or 5xx status makes the tool fail with
    [HTTPError] (a ServiceError); a response whose body lacks the expected
    fields makes it fail with the exception of the failed access (a
    ProtocolError); a connection failure or a timeout of the request makes
    it fail with that exception of [requests] (an UnavailableError); and
    the three kinds differ. *)
Theorem failure_kinds (lab_text : str) (log : list Request) :
  (forall resp,
      endpoint (the_request lab_text) = Returned resp ->
      (400 <= status_code resp < 600)%Z ->
      fst (summarize_lab_report lab_text log)
      = Raised (HTTPError (status_code resp))
      /\ failure_kind_of (HTTPError (status_code resp)) = ServiceError)
  /\ (forall data e,
        reply_data lab_text data ->
        choice_content data = Raised e ->
        fst (summarize_lab_report lab_text log) = Raised e
        /\ failure_kind_of e = ProtocolError)
  /\ (forall e,
        endpoint (the_request lab_text) = Raised e ->
        e = ConnectionError \/ e = Timeout ->
        fst (summarize_lab_report lab_text log) = Raised e
        /\ failure_kind_of e = UnavailableError)
  /\ ServiceError <> ProtocolError
  /\ ServiceError <> UnavailableError
  /\ ProtocolError <> UnavailableError.
Proof.
  split; [|split; [|split; [|repeat split; discriminate]]].
  - intros resp E Hs. split; [|reflexivity].
    rewrite summarize_lab_report_run. cbn [fst]. rewrite E.
    cbn [and_then]. unfold read_response, raise_for_status.
    destruct ((400 <=? status_code resp) && (status_code resp <? 500))%Z
      eqn:E1; [reflexivity|].
    destruct ((500 <=? status_code resp) && (status_code resp <? 600))%Z
      eqn:E2; [reflexivity|].
    apply andb_false_iff in E1, E2. lia.
  - intros d e R C. split.
    + rewrite (run_reply_data _ R), C. reflexivity.
    + now apply choice_content_raises with d.
  - intros e E He. split.
    + rewrite summarize_lab_report_run. cbn [fst]. now rewrite E.
    + now destruct He as [-> | ->].
Qed.

(** C6: when the sanitized text of the reply is not well-formed, the tool
    fails with [JSONDecodeError] (a MalformedOutputError), and the
    exception carries the sanitized text. *)
Theorem malformed_output_raises (lab_text txt : str) (log : list Request) :
  reply_text lab_text txt ->
  json_decode (_strip_code_fences txt) = None ->
  fst (summarize_lab_report lab_text log)
  = Raised (JSONDecodeError (_strip_code_fences txt))
  /\ failure_kind_of (JSONDecodeError (_strip_code_fences txt))
     = MalformedOutputError.
Proof.
  intros R L. rewrite (run_reply_text _ R). unfold json_loads.
  now rewrite L.
Qed.

Lemma and_then_assoc {A B C} (r : result A) (f : A -> result B)
    (g : B -> result C) :
  (r >>= f >>= g) = (r >>= fun a => f a >>= g).
Proof. now destruct r. Qed.

Lemma getitem_first (x : json) (xs : list json) :
  getitem (JArray (x :: xs)) (Index 0) = Returned x.
Proof.
  unfold getitem, seq_index.
  replace (0 <? Z.of_nat (List.length (x :: xs)))%Z with true
    by (symmetry; apply Z.ltb_lt; cbn [List.length]; lia).
  reflexivity.
Qed.

(** C7: every run of the tool calls [requests.post] once; the body of the
    request is the JSON text of an object with the model identifier, the
    messages (the fixed system message first, the caller's text as user
    message second), the maximal output length and the temperature; and
    when the response lists candidate completions, the result is what the
    first of them gives, whatever the others are. *)
Theorem one_request_first_choice (lab_text : str) (log : list Request) :
  snd (summarize_lab_report lab_text log) = log ++ [the_request lab_text]
  /\ url (the_request lab_text) = FOUNDRY_LOCAL_CHAT_URL
  /\ (exists payload,
        data (the_request lab_text) = json_dumps (JObject payload)
        /\ dict_get (lit "model") payload
           = Some (JString FOUNDRY_LOCAL_MODEL_ID)
        /\ dict_get (lit "messages") payload
           = Some (JArray
                     [ JObject
                         [ (lit "role", JString (lit "system"));
                           (lit "content", JString LOCAL_LAB_SYSTEM_PROMPT) ];
                       JObject
                         [ (lit "role", JString (lit "user"));
                           (lit "content", JString lab_text) ] ])
        /\ dict_get (lit "max_tokens") payload = Some (JInt 256)
        /\ dict_get (lit "temperature") payload
           = Some (JFloat (lit "0.2")))
  /\ (forall resp members first others,
        endpoint (the_request lab_text) = Returned resp ->
        raise_for_status resp = Returned tt ->
        json_decode (text resp) = Some (JObject members) ->
        dict_get (lit "choices") members = Some (JArray (first :: others)) ->
        fst (summarize_lab_report lab_text log) = read_choice first).
Proof.
  rewrite summarize_lab_report_run. cbn [snd fst].
  split; [reflexivity|]. split; [reflexivity|]. split.
  - eexists. split; [reflexivity|]. repeat (split; [reflexivity|]).
    reflexivity.
  - intros resp members first others E S D C.
    rewrite E. cbn [and_then].
    unfold read_response, response_json. rewrite S, D. cbn [and_then].
    unfold choice_content, read_choice. cbn [getitem]. rewrite C.
    cbn [and_then]. rewrite getitem_first. cbn [and_then].
    now rewrite !and_then_assoc.
Qed.


(** C10: when the body of the response is an object without "choices",
    or with an empty "choices" list, or whose first choice lacks
    "message", or whose message lacks "content", the tool raises the
    exception of the unguarded access. *)
Theorem missing_fields_raise (lab_text : str) (log : list Request)
    (members : list (str * json)) :
  reply_data lab_text (JObject members) ->
  (dict_get (lit "choices") members = None ->
     fst (summarize_lab_report lab_text log)
     = Raised (KeyError (JString (lit "choices"))))
  /\ (dict_get (lit "choices") members = Some (JArray []) ->
        fst (summarize_lab_report lab_text log) = Raised IndexError)
  /\ (forall choice others,
        dict_get (lit "choices") members
        = Some (JArray (JObject choice :: others)) ->
        dict_get (lit "message") choice = None ->
        fst (summarize_lab_report lab_text log)
        = Raised (KeyError (JString (lit "message"))))
  /\ (forall choice others message,
        dict_get (lit "choices") members
        = Some (JArray (JObject choice :: others)) ->
        dict_get (lit "message") choice = Some (JObject message) ->
        dict_get (lit "content") message = None ->
        fst (summarize_lab_report lab_text log)
        = Raised (KeyError (JString (lit "content")))).
Proof.
  intros R. rewrite (run_reply_data _ R). unfold choice_content.
  repeat split.
  - intros C. cbn [getitem]. now rewrite C.
  - intros C. cbn [getitem]. now rewrite C.
  - intros choice others C M. cbn [getitem]. rewrite C.
    cbn [and_then]. rewrite getitem_first. cbn [and_then getitem].
    now rewrite M.
  - intros choice others message C M K. cbn [getitem]. rewrite C.
    cbn [and_then]. rewrite getitem_first. cbn [and_then getitem].
    rewrite M. cbn [and_then getitem]. now rewrite K.
Qed.

End Tool.

(** ** The theorems at concrete replies *)

(** The reply of an endpoint that answers with a chat completion. *)
Lemma reply_data_chat_completion (status : Z) (content : json)
    (lab_text : str) :
  raise_for_status {| status_code := status;
                      text := chat_completion content |} = Returned tt ->
  reference_decoder (chat_completion content)
  = Some (chat_completion_data content) ->
  reply_data reference_decoder (replying status (chat_completion content))
    lab_text (chat_completion_data content).
Proof.
  intros S D. eexists. split; [reflexivity|]. split; assumption.
Qed.

(** The payload of scenario B, returned as it is. *)
Lemma summarize_lab_report_returns_parsed_value_witness :
  fst (summarize_lab_report reference_decoder
         (replying 200 (chat_completion (JString (json_dumps scenario_B_payload))))
         example_lab_text [])
  = Returned scenario_B_payload.
Proof.
  apply summarize_lab_report_returns_parsed_value.
  exists (json_dumps scenario_B_payload). split.
  - exists (JString (json_dumps scenario_B_payload)). split.
    + exists (chat_completion_data (JString (json_dumps scenario_B_payload))).
      split; [|reflexivity].
      apply reply_data_chat_completion; vm_compute; reflexivity.
    + reflexivity.
  - vm_compute. reflexivity.
Defined.

(** The payload of scenario B parses, has a severity outside the
    enumeration, and is returned by the tool, which raises nothing. *)
Lemma schema_violation_is_returned :
  reference_decoder (json_dumps scenario_B_payload) = Some scenario_B_payload
  /\ spec_schema_ok scenario_B_payload = false
  /\ fst (summarize_lab_report reference_decoder
            (replying 200
               (chat_completion (JString (json_dumps scenario_B_payload))))
            example_lab_text [])
     = Returned scenario_B_payload
  /\ forall e,
       fst (summarize_lab_report reference_decoder
              (replying 200
                 (chat_completion (JString (json_dumps scenario_B_payload))))
              example_lab_text [])
       <> Raised e.
Proof.
  assert (R : fst (summarize_lab_report reference_decoder
                     (replying 200
                        (chat_completion
                           (JString (json_dumps scenario_B_payload))))
                     example_lab_text [])
              = Returned scenario_B_payload) by (vm_compute; reflexivity).
  repeat split; try (vm_compute; reflexivity).
  intros e. rewrite R. discriminate.
Qed.

(** Scenario A: the three wrappings of its payload, written with
    whitespace around it. *)
Lemma sanitize_then_parse_wrappings_witness :
  spec_schema_ok scenario_A_payload = true
  /\ object_text (strip scenario_A_text)
  /\ reference_decoder (strip scenario_A_text) = Some scenario_A_payload
  /\ read_text reference_decoder (JString (fenced_with_tag scenario_A_text))
     = Returned scenario_A_payload
  /\ read_text reference_decoder (JString (fenced scenario_A_text))
     = Returned scenario_A_payload
  /\ read_text reference_decoder (JString scenario_A_text)
     = Returned scenario_A_payload.
Proof.
  assert (O : object_text (strip scenario_A_text)).
  { replace (strip scenario_A_text) with (json_dumps scenario_A_payload)
      by (vm_compute; reflexivity).
    apply json_dumps_object_text. }
  split; [reflexivity|]. split; [exact O|].
  split; [vm_compute; reflexivity|].
  apply sanitize_then_parse_wrappings;
    [reflexivity | exact O | vm_compute; reflexivity].
Defined.

(** A bare payload with whitespace around it. *)
Lemma strip_code_fences_total_and_unfenced_witness :
  startswith (strip (lit "  {} ")) fence = false
  /\ _strip_code_fences (lit "  {} ") = strip (lit "  {} ").
Proof.
  split; [reflexivity|].
  apply (proj2 (strip_code_fences_total_and_unfenced (lit "  {} "))).
  reflexivity.
Defined.

(** Scenario C (status 500), a body without fields, and a timeout. *)
Lemma failure_kinds_witness :
  fst (summarize_lab_report reference_decoder
         (replying 500 (lit "Internal Server Error")) example_lab_text [])
  = Raised (HTTPError 500)
  /\ fst (summarize_lab_report reference_decoder
            (replying 200 empty_object_body) example_lab_text [])
     = Raised (KeyError (JString (lit "choices")))
  /\ fst (summarize_lab_report reference_decoder (failing Timeout)
            example_lab_text [])
     = Raised Timeout.
Proof.
  split; [|split].
  - apply (proj1 (failure_kinds reference_decoder
                    (replying 500 (lit "Internal Server Error"))
                    example_lab_text [])
             {| status_code := 500; text := lit "Internal Server Error" |}).
    + reflexivity.
    + simpl. lia.
  - apply (proj1 (proj2 (failure_kinds reference_decoder
                           (replying 200 empty_object_body)
                           example_lab_text []))
             (JObject [])).
    + exists {| status_code := 200; text := empty_object_body |}.
      repeat split; vm_compute; reflexivity.
    + reflexivity.
  - apply (proj1 (proj2 (proj2 (failure_kinds reference_decoder
                                  (failing Timeout) example_lab_text [])))
             Timeout).
    + reflexivity.
    + right. reflexivity.
Defined.

(** Status 300 is not of the successful class, and the tool goes on to read
    the body and returns its payload. *)
Lemma redirection_status_is_not_raised :
  success_status 300 = false
  /\ fst (summarize_lab_report reference_decoder
            (replying 300
               (chat_completion (JString (json_dumps scenario_A_payload))))
            example_lab_text [])
     = Returned scenario_A_payload.
Proof.
  split; vm_compute; reflexivity.
Qed.

(** A reply in prose. *)
Lemma malformed_output_raises_witness :
  reply_text reference_decoder
    (replying 200 (chat_completion (JString (lit "Here is the summary."))))
    example_lab_text (lit "Here is the summary.")
  /\ reference_decoder (_strip_code_fences (lit "Here is the summary.")) = None
  /\ fst (summarize_lab_report reference_decoder
            (replying 200
               (chat_completion (JString (lit "Here is the summary."))))
            example_lab_text [])
     = Raised (JSONDecodeError (lit "Here is the summary.")).
Proof.
  assert (R : reply_text reference_decoder
                (replying 200
                   (chat_completion (JString (lit "Here is the summary."))))
                example_lab_text (lit "Here is the summary.")).
  { exists (JString (lit "Here is the summary.")). split; [|reflexivity].
    exists (chat_completion_data (JString (lit "Here is the summary."))).
    split; [|reflexivity].
    apply reply_data_chat_completion; vm_compute; reflexivity. }
  split; [exact R|]. split; [vm_compute; reflexivity|].
  apply (proj1 (malformed_output_raises [] R
                  (eq_refl : reference_decoder
                               (_strip_code_fences (lit "Here is the summary."))
                             = None))).
Defined.

(** A response with two candidates. *)
Lemma one_request_first_choice_witness :
  fst (summarize_lab_report reference_decoder
         (replying 200
            (json_dumps (two_choices (JString (lit "[1]")) (JString (lit "[2]")))))
         example_lab_text [])
  = read_choice reference_decoder
      (JObject [ (lit "message", JObject [ (lit "content", JString (lit "[1]")) ]) ]).
Proof.
  eapply (proj2 (proj2 (proj2
            (one_request_first_choice reference_decoder
               (replying 200
                  (json_dumps
                     (two_choices (JString (lit "[1]")) (JString (lit "[2]")))))
               example_lab_text [])))).
  - reflexivity.
  - reflexivity.
  - vm_compute. reflexivity.
  - reflexivity.
Defined.


(** The fence with the tag around an empty object. *)
Lemma strip_code_fences_fenced_stages_witness :
  strip (fenced_with_tag (lit "{}"))
  = fence ++ lit "json" ++ line_feed ++ lit "{}" ++ line_feed ++ fence
  /\ _strip_code_fences (fenced_with_tag (lit "{}")) = lit "{}".
Proof.
  split; [reflexivity|].
  destruct (strip_code_fences_fenced_stages (fenced_with_tag (lit "{}"))
              (rest := lit "json" ++ line_feed ++ lit "{}" ++ line_feed ++ fence)
              eq_refl)
    as (body & Htag & _ & Hclose & _).
  destruct (Htag eq_refl) as (tag & after & E & L & ->).
  destruct tag as [|c1 [|c2 [|c3 [|c4 [|c5 tag]]]]]; try discriminate L.
  injection E as _ _ _ _ <-.
  exact (Hclose (lit "{}" ++ line_feed) eq_refl).
Defined.

(** The token after the marker is "jsonl", which is not the language tag;
    the sanitizer removes its first four letters all the same, where the
    sanitizer of the specification's wording leaves the token in place. *)
Lemma tag_letters_of_longer_token_removed :
  next_token (lstrip (slice_from 3 (strip jsonl_fenced))) = lit "jsonl"
  /\ is_language_tag (lit "jsonl") = false
  /\ _strip_code_fences jsonl_fenced = lit "l" ++ line_feed ++ lit "{}"
  /\ sanitize_by_token jsonl_fenced = lit "jsonl" ++ line_feed ++ lit "{}"
  /\ _strip_code_fences jsonl_fenced <> sanitize_by_token jsonl_fenced.
Proof.
  repeat split; try (vm_compute; reflexivity).
  vm_compute. discriminate.
Qed.

(** A body without fields. *)
Lemma missing_fields_raise_witness :
  reply_data reference_decoder (replying 200 empty_object_body)
    example_lab_text (JObject [])
  /\ fst (summarize_lab_report reference_decoder
            (replying 200 empty_object_body) example_lab_text [])
     = Raised (KeyError (JString (lit "choices"))).
Proof.
  assert (R : reply_data reference_decoder (replying 200 empty_object_body)
                example_lab_text (JObject [])).
  { exists {| status_code := 200; text := empty_object_body |}.
    repeat split; vm_compute; reflexivity. }
  split; [exact R|].
  apply (proj1 (missing_fields_raise [] R)). reflexivity.
Defined.

(** ** Further properties of the sanitizer *)

Lemma ends_solid_suffix (a b : str) : ends_solid (a ++ b) -> ends_solid b.
Proof.
  unfold ends_solid. rewrite rev_app_distr. apply starts_solid_prefix.
Qed.

Lemma rstrip_ends_solid (s : str) : ends_solid (rstrip s).
Proof.
  unfold ends_solid, rstrip. rewrite rev_involutive.
  apply lstrip_starts_solid.
Qed.

(** The three stages keep a part of what they are given, without whitespace
    at its ends. *)
Lemma tag_stage_part (b : str) :
  starts_solid b -> ends_solid b ->
  let body := if begins_with_tag b then lstrip (slice_from 4 b) else b in
  (exists pre, b = pre ++ body) /\ starts_solid body /\ ends_solid body.
Proof.
  intros H1 H2 body. unfold body.
  destruct (begins_with_tag b); [|split; [now exists []|auto]].
  destruct (lstrip_split (slice_from 4 b)) as (w & _ & E).
  assert (P : b = (firstn 4 b ++ w) ++ lstrip (slice_from 4 b)).
  { rewrite <- app_assoc, <- E. symmetry. apply firstn_skipn. }
  split; [eauto|]. split; [apply lstrip_starts_solid|].
  apply ends_solid_suffix with (firstn 4 b ++ w). now rewrite <- P.
Qed.

Lemma closing_stage_part (body : str) :
  starts_solid body -> ends_solid body ->
  let out := if endswith body fence
             then rstrip (slice_drop_last 3 body) else body in
  (exists post, body = out ++ post) /\ starts_solid out /\ ends_solid out.
Proof.
  intros H1 H2 out. unfold out.
  destruct (endswith body fence) eqn:E.
  - apply endswith_iff in E as [core ->].
    change 3 with (List.length fence). rewrite slice_drop_last_app.
    destruct (rstrip_split core) as (w & _ & Ec).
    assert (P : core ++ fence = rstrip core ++ w ++ fence)
      by (rewrite Ec at 1; now rewrite <- app_assoc).
    split; [eauto|]. split; [|apply rstrip_ends_solid].
    apply starts_solid_prefix with (w ++ fence). now rewrite <- P.
  - split; [exists []; now rewrite app_nil_r | auto].
Qed.

Lemma strip_code_fences_part (text : str) :
  (exists pre post, text = pre ++ _strip_code_fences text ++ post)
  /\ starts_solid (_strip_code_fences text)
  /\ ends_solid (_strip_code_fences text).
Proof.
  destruct (strip_split text) as (w1 & w2 & _ & _ & E).
  destruct (startswith (strip text) fence) eqn:F.
  - apply startswith_inv in F as [rest F].
    rewrite (strip_code_fences_opened _ F). cbv zeta.
    destruct (lstrip_split rest) as (u & _ & Er).
    assert (S1 : starts_solid (lstrip rest)) by apply lstrip_starts_solid.
    assert (S2 : ends_solid (lstrip rest)).
    { apply ends_solid_suffix with (fence ++ u).
      rewrite <- app_assoc, <- Er, <- F. apply strip_ends_solid. }
    destruct (@tag_stage_part _ S1 S2) as ([pre Eb] & B1 & B2).
    cbv zeta in Eb, B1, B2.
    destruct (@closing_stage_part _ B1 B2) as ([post Eo] & O1 & O2).
    cbv zeta in Eo, O1, O2.
    split; [|auto].
    exists (w1 ++ fence ++ u ++ pre), (post ++ w2).
    set (out := if endswith _ fence then _ else _) in *.
    set (body := if begins_with_tag (lstrip rest) then _ else _) in *.
    set (b0 := lstrip rest) in *.
    transitivity (w1 ++ (fence ++ u ++ pre ++ out ++ post) ++ w2);
      [|now rewrite <- !app_assoc].
    rewrite E at 1. do 2 f_equal. rewrite F. f_equal.
    rewrite Er. f_equal. rewrite Eb. f_equal. exact Eo.
  - rewrite (strip_code_fences_unfenced _ F).
    split; [eauto|]. split; [apply strip_starts_solid|apply strip_ends_solid].
Qed.

(** X1: whatever the input, the result of the sanitizer has no whitespace at
    its ends: trimming it changes nothing. *)
Theorem strip_code_fences_is_trimmed (text : str) :
  strip (_strip_code_fences text) = _strip_code_fences text.
Proof.
  destruct (strip_code_fences_part text) as (_ & H1 & H2).
  now apply strip_solid.
Qed.

(** X2: the result of the sanitizer is a contiguous part of its input: the
    sanitizer only cuts characters off the two ends, it never changes or
    adds one, and so the result is never longer than the input. *)
Theorem strip_code_fences_is_part_of_input (text : str) :
  (exists pre post, text = pre ++ _strip_code_fences text ++ post)
  /\ List.length (_strip_code_fences text) <= List.length text.
Proof.
  destruct (strip_code_fences_part text) as ((pre & post & E) & _).
  split; [eauto|].
  rewrite E at 2. rewrite !length_app. lia.
Qed.

Lemma ends_solid_app_r (r s : str) :
  s <> [] -> ends_solid s -> ends_solid (r ++ s).
Proof.
  unfold ends_solid. intros Hs H. rewrite rev_app_distr.
  destruct (rev s) as [|c x] eqn:E; [|exact H].
  apply (f_equal (@rev ascii)) in E. rewrite rev_involutive in E.
  now destruct Hs.
Qed.

Lemma strip_blank_around (w0 x w4 : str) :
  blank w0 -> blank w4 -> x <> [] -> starts_solid x -> ends_solid x ->
  strip (w0 ++ x ++ w4) = x.
Proof.
  intros B0 B4 Hx H1 H2. unfold strip.
  rewrite lstrip_blank_app, lstrip_app_solid, rstrip_app_blank by assumption.
  now apply rstrip_solid.
Qed.

Lemma app_split_assoc (r t a b c : str) :
  t = a ++ b ++ c -> t ++ r = a ++ b ++ c ++ r.
Proof. intros ->. now rewrite <- !app_assoc. Qed.

(** A text that opens with the marker, with whitespace around it. *)
Lemma strip_code_fences_opened_around (w0 rest w4 : str) :
  blank w0 -> blank w4 -> ends_solid (fence ++ rest) ->
  _strip_code_fences (w0 ++ (fence ++ rest) ++ w4) =
    let body :=
      if begins_with_tag (lstrip rest)
      then lstrip (slice_from 4 (lstrip rest))
      else lstrip rest in
    if endswith body fence then rstrip (slice_drop_last 3 body) else body.
Proof.
  intros B0 B4 H. apply strip_code_fences_opened.
  apply strip_blank_around; auto; [discriminate|].
  exact (eq_refl : isspace "`" = false).
Qed.

Lemma fence_ends_solid : ends_solid fence.
Proof. exact (eq_refl : isspace "`" = false). Qed.

Lemma tag_letter_is_solid (c : ascii) :
  letter "j" "J" c = true -> isspace c = false.
Proof.
  destruct c as [[] [] [] [] [] [] [] []]; vm_compute; auto; discriminate.
Qed.

(** What follows a tag of four letters: the tag is found and cut off. *)
Lemma tag_stage_tagged (w1 tag r : str) :
  blank w1 -> List.length tag = 4 -> begins_with_tag tag = true ->
  lstrip (w1 ++ tag ++ r) = tag ++ r
  /\ begins_with_tag (tag ++ r) = true
  /\ slice_from 4 (tag ++ r) = r.
Proof.
  intros B1 L T.
  destruct tag as [|a [|b [|c [|d [|e tag]]]]]; try discriminate L.
  split; [|split; [exact T | reflexivity]].
  rewrite lstrip_blank_app by assumption.
  apply lstrip_app_solid; [discriminate|].
  cbn [begins_with_tag] in T. apply andb_prop in T as [T _].
  apply andb_prop in T as [T _]. apply andb_prop in T as [T _].
  now apply tag_letter_is_solid.
Qed.

Lemma backtick_is_no_letter :
  letter "s" "S" "`" = false /\ letter "o" "O" "`" = false
  /\ letter "n" "N" "`" = false.
Proof. now vm_compute. Qed.

(** The letters of the tag are not found in a text that is followed by
    whitespace or by the marker, unless the text itself begins with them. *)
Lemma begins_with_tag_before_fence (p w : str) :
  p <> [] -> blank w ->
  begins_with_tag (p ++ w ++ fence) = begins_with_tag p.
Proof.
  intros Hp Hw.
  destruct w as [|c w]; [|apply begins_with_tag_blank; auto; discriminate].
  destruct backtick_is_no_letter as (Ls & Lo & Ln).
  destruct p as [|c1 [|c2 [|c3 [|c4 p]]]]; [congruence| | | |reflexivity];
    cbn [app begins_with_tag fence lit list_ascii_of_string].
  - now rewrite Ls, !andb_false_r.
  - now rewrite Lo, !andb_false_r.
  - now rewrite Ln, !andb_false_r.
Qed.

Lemma tagged_fence_sanitized (w0 w1 tag t w4 : str) :
  blank w0 -> blank w1 -> blank w4 ->
  List.length tag = 4 -> begins_with_tag tag = true ->
  strip t <> [] ->
  _strip_code_fences (w0 ++ (fence ++ w1 ++ tag ++ t ++ fence) ++ w4)
  = strip t.
Proof.
  intros B0 B1 B4 L T Hp.
  destruct (strip_split t) as (w2 & w3 & B2 & B3 & E).
  rewrite strip_code_fences_opened_around; auto.
  - cbv zeta.
    destruct (@tag_stage_tagged w1 tag (t ++ fence) B1 L T) as (E1 & E2 & E3).
    rewrite E1, E2, E3.
    replace (t ++ fence) with (w2 ++ strip t ++ w3 ++ fence)
      by (symmetry; apply (@app_split_assoc fence _ _ _ _ E)).
    apply (@fenced_body _ _ _ Hp (strip_starts_solid t) (strip_ends_solid t) B2 B3).
  - rewrite !app_assoc. apply ends_solid_app_r; [discriminate|].
    apply fence_ends_solid.
Qed.

(** X3: a payload between an opening marker with the tag and a closing
    marker comes back trimmed, whatever the case of the four letters of the
    tag and whatever whitespace stands before the opening marker, between
    marker and tag, around the payload and after the closing marker. *)
Theorem strip_code_fences_tagged_fence (w0 w1 tag t w4 : str) :
  blank w0 -> blank w1 -> blank w4 ->
  List.length tag = 4 -> begins_with_tag tag = true ->
  strip t <> [] ->
  _strip_code_fences (w0 ++ (fence ++ w1 ++ tag ++ t ++ fence) ++ w4)
  = strip t.
Proof. apply tagged_fence_sanitized. Qed.

Lemma plain_fence_sanitized (w0 t w4 : str) :
  blank w0 -> blank w4 ->
  strip t <> [] -> begins_with_tag (strip t) = false ->
  _strip_code_fences (w0 ++ (fence ++ t ++ fence) ++ w4) = strip t.
Proof.
  intros B0 B4 Hp T.
  destruct (strip_split t) as (w2 & w3 & B2 & B3 & E).
  rewrite strip_code_fences_opened_around; auto.
  - cbv zeta.
    replace (t ++ fence) with (w2 ++ strip t ++ w3 ++ fence)
      by (symmetry; apply (@app_split_assoc fence _ _ _ _ E)).
    destruct (@fenced_body _ _ _ Hp (strip_starts_solid t) (strip_ends_solid t)
                B2 B3) as [Eb R].
    cbv zeta in Eb, R. rewrite Eb in *.
    now rewrite begins_with_tag_before_fence, T.
  - rewrite app_assoc. apply ends_solid_app_r; [discriminate|].
    apply fence_ends_solid.
Qed.

(** X4: a payload between an opening marker without tag and a closing
    marker comes back trimmed, whatever whitespace stands around the markers
    and the payload, provided the payload does not itself begin with the
    four letters of the tag. *)
Theorem strip_code_fences_plain_fence (w0 t w4 : str) :
  blank w0 -> blank w4 ->
  strip t <> [] -> begins_with_tag (strip t) = false ->
  _strip_code_fences (w0 ++ (fence ++ t ++ fence) ++ w4) = strip t.
Proof. apply plain_fence_sanitized. Qed.

(** X5: when the closing marker is missing, as in a reply that was cut
    short, the opening marker (and the tag, if there is one) is removed all
    the same and the rest comes back trimmed. *)
Theorem strip_code_fences_unclosed_fence (w0 w1 t : str) :
  blank w0 -> blank w1 ->
  strip t <> [] -> endswith (strip t) fence = false ->
  (forall tag,
      List.length tag = 4 -> begins_with_tag tag = true ->
      _strip_code_fences (w0 ++ fence ++ w1 ++ tag ++ t) = strip t)
  /\ (begins_with_tag (strip t) = false ->
      _strip_code_fences (w0 ++ fence ++ t) = strip t).
Proof.
  intros B0 B1 Hp C.
  destruct (strip_split t) as (w2 & w3 & B2 & B3 & E).
  assert (S : ends_solid (strip t)) by apply strip_ends_solid.
  assert (Lp : lstrip (w2 ++ strip t) = strip t).
  { rewrite lstrip_blank_app by assumption.
    apply lstrip_solid, strip_starts_solid. }
  split.
  - intros tag L T.
    replace (w0 ++ fence ++ w1 ++ tag ++ t)
      with (w0 ++ (fence ++ w1 ++ tag ++ w2 ++ strip t) ++ w3)
      by (rewrite <- !app_assoc; do 4 f_equal; now symmetry).
    rewrite strip_code_fences_opened_around; auto.
    + cbv zeta.
      destruct (@tag_stage_tagged w1 tag (w2 ++ strip t) B1 L T) as (E1 & E2 & E3).
      now rewrite E1, E2, E3, Lp, C.
    + rewrite !app_assoc. now apply ends_solid_app_r.
  - intros T.
    replace (w0 ++ fence ++ t)
      with (w0 ++ (fence ++ w2 ++ strip t) ++ w3)
      by (rewrite <- !app_assoc; do 2 f_equal; now symmetry).
    rewrite strip_code_fences_opened_around; auto.
    + cbv zeta. now rewrite Lp, T, C.
    + rewrite !app_assoc. now apply ends_solid_app_r.
Qed.

(** X13: the sanitizer removes one pair of markers only: from a payload
    that is fenced twice it removes the outer pair and returns the inner
    fence untouched, so that it is not idempotent. *)
Theorem strip_code_fences_removes_one_fence (t : str) :
  _strip_code_fences (fenced (fenced t)) = fenced t.
Proof.
  assert (S : strip (line_feed ++ fenced t ++ line_feed) = fenced t).
  { apply strip_blank_around; try apply blank_line_feed.
    - discriminate.
    - exact (eq_refl : isspace "`" = false).
    - unfold fenced. rewrite !app_assoc.
      apply ends_solid_app_r; [discriminate | apply fence_ends_solid]. }
  replace (fenced (fenced t))
    with ([] ++ (fence ++ (line_feed ++ fenced t ++ line_feed) ++ fence) ++ [])
    by (unfold fenced at 2; now rewrite app_nil_r, <- !app_assoc).
  rewrite plain_fence_sanitized; try reflexivity; rewrite S; auto.
  discriminate.
Qed.

(** ** The body of the request *)

Lemma escape_char_printable (c : ascii) :
  forallb printable (escape_char c) = true.
Proof. destruct c as [[] [] [] [] [] [] [] []]; vm_compute; reflexivity. Qed.

Lemma dumps_str_printable (s : str) : forallb printable (dumps_str s) = true.
Proof.
  unfold dumps_str. cbn [forallb].
  rewrite forallb_app. cbn [forallb].
  replace (printable dq) with true by reflexivity.
  rewrite andb_true_r. cbn [andb].
  induction s as [|c s IH]; [reflexivity|].
  cbn [flat_map]. now rewrite forallb_app, escape_char_printable, IH.
Qed.

(** What [scan_string] makes of an escaped character, and of an escaped
    string up to its closing quote. *)
Lemma scan_escape_char (c : ascii) (rest acc : str) :
  scan_string (escape_char c ++ rest) acc = scan_string rest (c :: acc).
Proof.
  destruct c as [[] [] [] [] [] [] [] []]; lazy -[scan_string]; reflexivity.
Qed.

Lemma scan_escaped (s rest acc : str) :
  scan_string (flat_map escape_char s ++ dq :: rest) acc
  = Some (rev acc ++ s, rest).
Proof.
  revert acc. induction s as [|c s IH]; intros acc.
  - cbn [flat_map app]. now rewrite app_nil_r.
  - cbn [flat_map]. rewrite <- app_assoc, scan_escape_char, IH.
    cbn [rev]. now rewrite <- app_assoc.
Qed.

Lemma parse_dumps_str (fuel : nat) (s rest : str) :
  parse_value (S fuel) (dumps_str s ++ rest) = Some (JString s, rest).
Proof.
  unfold dumps_str. cbn [app parse_value].
  replace (nat_of_ascii dq =? 34) with true by reflexivity.
  rewrite <- app_assoc. cbn [app]. now rewrite scan_escaped.
Qed.

(** X6: the body of the request consists of printable ASCII characters
    only, whatever characters the lab text holds: control characters,
    quotes, backslashes and characters above U+007E are all escaped. *)
Theorem request_body_is_printable_ascii (lab_text : str) :
  forallb printable (data (the_request lab_text)) = true.
Proof.
  cbn [data the_request request_payload json_dumps].
  rewrite !forallb_app, !dumps_str_printable. reflexivity.
Qed.

(** The steps of the reference decoder over the text that [json.dumps]
    writes for an object and for a list. *)
Lemma parse_object_open (fuel : nat) (k rest : str) :
  parse_value (S fuel) ("{" :: dumps_str k ++ rest)%char
  = parse_members fuel (dumps_str k ++ rest) [].
Proof. reflexivity. Qed.

Lemma parse_member (fuel : nat) (k x : str) (acc : list (str * json)) :
  skip_ws x = x ->
  parse_members (S fuel) (dumps_str k ++ ":" :: " " :: x)%char acc
  = match parse_value fuel x with
    | None => None
    | Some (v, r2) =>
        match skip_ws r2 with
        | c2 :: r3 =>
            if Ascii.eqb c2 ","
            then parse_members fuel (skip_ws r3) (dict_set k v acc)
            else if Ascii.eqb c2 "}"
                 then Some (JObject (dict_set k v acc), r3)
                 else None
        | [] => None
        end
    end.
Proof.
  intros Hx. unfold dumps_str. cbn [app parse_members].
  replace (negb (Ascii.eqb dq dq)) with false by reflexivity.
  rewrite <- app_assoc. cbn [app]. rewrite scan_escaped. cbn [rev app].
  change (skip_ws (":" :: " " :: x)%char) with (":" :: " " :: x)%char.
  cbv iota.
  replace (negb (Ascii.eqb ":" ":")) with false by reflexivity.
  change (skip_ws (" " :: x)%char) with (skip_ws x). now rewrite Hx.
Qed.

Lemma parse_list_open (fuel : nat) (c : ascii) (rest : str) :
  json_ws c = false -> Ascii.eqb c "]" = false ->
  parse_value (S fuel) ("[" :: c :: rest)%char
  = parse_elements fuel (c :: rest) [].
Proof.
  intros W B. cbn [parse_value].
  change (nat_of_ascii "[" =? 34) with false.
  change (nat_of_ascii "[" =? 123) with false.
  change (nat_of_ascii "[" =? 91) with true. cbv iota.
  cbn [skip_ws]. now rewrite W, B.
Qed.

Lemma skip_ws_dumps_str (s rest : str) :
  skip_ws (dumps_str s ++ rest) = dumps_str s ++ rest.
Proof. reflexivity. Qed.

Lemma parse_element (fuel : nat) (x : str) (acc : list json) :
  parse_elements (S fuel) x acc
  = match parse_value fuel x with
    | None => None
    | Some (v, r) =>
        match skip_ws r with
        | c :: r' =>
            if Ascii.eqb c ","
            then parse_elements fuel (skip_ws r') (v :: acc)
            else if Ascii.eqb c "]"
                 then Some (JArray (rev (v :: acc)), r')
                 else None
        | [] => None
        end
    end.
Proof. reflexivity. Qed.

(** The text of a punctuation mark and what follows it. *)
Ltac punctuation :=
  change (lit "{") with ["{"%char];
  change (lit "}") with ["}"%char];
  change (lit "[") with ["["%char];
  change (lit "]") with ["]"%char];
  change (lit ": ") with [":"%char; " "%char];
  change (lit ", ") with [","%char; " "%char];
  repeat (first [rewrite <- app_assoc | rewrite app_nil_r
                | progress (cbn [app])]).

Ltac after_comma :=
  cbv beta iota;
  change (skip_ws ("," :: " " :: ?x)%char) with ("," :: " " :: x)%char;
  cbv iota;
  change (Ascii.eqb "," ",") with true; cbv iota;
  change (skip_ws (" " :: dumps_str ?k ++ ?y)%char) with (dumps_str k ++ y).

Ltac after_last closing :=
  cbv beta iota;
  change (skip_ws (closing :: ?x)) with (closing :: x);
  cbv iota;
  change (Ascii.eqb closing ",") with false;
  change (Ascii.eqb closing closing) with true; cbv iota.

Lemma parse_message (fuel : nat) (role content rest : str) :
  parse_value (S (S (S (S fuel))))
    (json_dumps (JObject [ (lit "role", JString role);
                           (lit "content", JString content) ]) ++ rest)
  = Some (JObject [ (lit "role", JString role);
                    (lit "content", JString content) ], rest).
Proof.
  cbn [json_dumps]. punctuation.
  rewrite parse_object_open.
  rewrite parse_member, parse_dumps_str by reflexivity. after_comma.
  rewrite parse_member, parse_dumps_str by reflexivity. after_last "}"%char.
  reflexivity.
Qed.

Lemma parse_list_of_objects_open (fuel : nat) (kv : list (str * json))
    (rest : str) :
  parse_value (S fuel) ("[" :: json_dumps (JObject kv) ++ rest)%char
  = parse_elements fuel (json_dumps (JObject kv) ++ rest) [].
Proof. reflexivity. Qed.

Lemma parse_request_payload (fuel : nat) (lab_text : str) :
  parse_value (12 + fuel) (json_dumps (request_payload lab_text))
  = Some (request_payload lab_text, []).
Proof.
  unfold request_payload.
  set (m1 := JObject [ (lit "role", JString (lit "system")); _ ]).
  set (m2 := JObject [ (lit "role", JString (lit "user")); _ ]).
  cbn [json_dumps Nat.add]. punctuation.
  rewrite parse_object_open.
  rewrite parse_member, parse_dumps_str by reflexivity. after_comma.
  rewrite parse_member by reflexivity.
  rewrite (parse_list_of_objects_open _ _ _ : parse_value _ ("[" :: json_dumps m1 ++ _)%char = _).
  rewrite parse_element.
  rewrite (parse_message _ _ _ _ : parse_value _ (json_dumps m1 ++ _) = _).
  change (skip_ws ("," :: " " :: ?x)%char) with ("," :: " " :: x)%char.
  cbv iota. change (Ascii.eqb "," ",") with true. cbv iota.
  change (skip_ws (" " :: json_dumps m2 ++ ?y)%char) with (json_dumps m2 ++ y).
  rewrite parse_element.
  rewrite (parse_message _ _ _ _ : parse_value _ (json_dumps m2 ++ _) = _).
  after_last "]"%char. cbn [rev app].
  after_comma.
  replace (dumps_int 256) with (lit "256") by (vm_compute; reflexivity).
  rewrite parse_member; [|reflexivity].
  change (parse_value (S ?f) (lit "256" ++ ?r)) with (Some (JInt 256, r)).
  after_comma.
  rewrite parse_member; [|reflexivity].
  change (parse_value (S ?f) (lit "0.2" ++ ?r))
    with (Some (JFloat (lit "0.2"), r)).
  after_last "}"%char.
  reflexivity.
Qed.

(** X7: decoded again, the body of the request is the payload itself:
    whatever characters the lab text holds, it reaches the endpoint as the
    content of the user message, unchanged, and cannot alter the rest of the
    request. *)
Theorem request_body_round_trip (lab_text : str) :
  reference_decoder (data (the_request lab_text))
  = Some (request_payload lab_text).
Proof.
  cbn [data the_request]. unfold reference_decoder.
  assert (H : exists fuel,
             2 * List.length (json_dumps (request_payload lab_text)) + 2
             = 12 + fuel).
  { exists (2 * List.length (json_dumps (request_payload lab_text)) + 2 - 12).
    assert (5 <= List.length (json_dumps (request_payload lab_text))).
    { cbn [request_payload json_dumps]. rewrite !length_app.
      change (List.length (dumps_str (lit "model"))) with 7. lia. }
    lia. }
  destruct H as [fuel ->].
  change (skip_ws (json_dumps (request_payload lab_text)))
    with (json_dumps (request_payload lab_text)).
  now rewrite parse_request_payload.
Qed.


(** ** Further properties of the tool *)

Section ToolFurther.

Variable json_decode : str -> option json.
Variable endpoint : Request -> result Response.

Lemma raise_for_status_cases (resp : Response) :
  (400 <= status_code resp < 600)%Z
  /\ raise_for_status resp = Raised (HTTPError (status_code resp))
  \/ ~ (400 <= status_code resp < 600)%Z
     /\ raise_for_status resp = Returned tt.
Proof.
  unfold raise_for_status.
  destruct ((400 <=? status_code resp) && (status_code resp <? 500))%Z eqn:E1.
  { left. split; [|reflexivity]. apply andb_prop in E1 as [A B]. lia. }
  destruct ((500 <=? status_code resp) && (status_code resp <? 600))%Z eqn:E2.
  { left. split; [|reflexivity]. apply andb_prop in E2 as [A B]. lia. }
  right. split; [|reflexivity]. apply andb_false_iff in E1, E2. lia.
Qed.



Lemma str_join_raising (items : list json) :
  str_join [] (JNull :: items) = Raised TypeError
  /\ (forall b, str_join [] (JBool b :: items) = Raised TypeError)
  /\ (forall n, str_join [] (JInt n :: items) = Raised TypeError)
  /\ (forall l, str_join [] (JFloat l :: items) = Raised TypeError)
  /\ (forall xs, str_join [] (JArray xs :: items) = Raised TypeError)
  /\ (forall kv, str_join [] (JObject kv :: items) = Raised TypeError).
Proof. repeat split. Qed.

(** A list of parts with an ill-typed fragment cannot be joined. *)
Lemma content_to_text_ill_typed (parts : list json) :
  forallb well_typed_fragment parts = false ->
  content_to_text (JArray parts) = Raised TypeError.
Proof.
  intros H. unfold content_to_text.
  match goal with
  | |- (?j >>= _) = _ => assert (E : j = Raised TypeError)
  end; [|now rewrite E].
  induction parts as [|part parts IH]; [discriminate|].
  cbn [forallb] in H. cbn [flat_map].
  destruct part as [| | | | | |kv]; cbn [well_typed_fragment andb app] in *;
    auto.
  destruct (dict_get (lit "text") kv) as [[| | | |t| |]|];
    cbn [andb] in H; try reflexivity;
    rewrite str_join_cons, (IH H); reflexivity.
Qed.



(** X9: a response with a status outside 400..599 whose body is not JSON
    (an empty body, a page of HTML) makes the tool fail with the decoding
    error of [Response.json], which carries the body. *)
Theorem body_not_json_raises
    (lab_text : str) (log : list Request) (resp : Response) :
  endpoint (the_request lab_text) = Returned resp ->
  ~ (400 <= status_code resp < 600)%Z ->
  json_decode (text resp) = None ->
  fst (summarize_lab_report json_decode endpoint lab_text log) = Raised (RequestsJSONDecodeError (text resp)).
Proof.
  intros E Hs D. rewrite summarize_lab_report_run. cbn [fst].
  rewrite E. cbn [and_then]. unfold read_response, response_json.
  destruct (raise_for_status_cases resp) as [[Hs' _]|[_ S]];
    [contradiction|].
  now rewrite S, D.
Qed.

(** X10: when the content of the reply is neither a list nor a string (it
    is null, a number, a boolean or an object), the tool fails with
    [AttributeError], raised by the first statement of the sanitizer. *)
Theorem content_without_text_raises
    (lab_text : str) (log : list Request) (content : json) :
  reply_content json_decode endpoint lab_text content ->
  (forall parts, content <> JArray parts) ->
  (forall s, content <> JString s) ->
  fst (summarize_lab_report json_decode endpoint lab_text log) = Raised AttributeError.
Proof.
  intros R NA NS. rewrite (run_reply_content _ R).
  destruct content as [| | | |s|parts|]; try reflexivity.
  - now destruct (NS s).
  - now destruct (NA parts).
Qed.

(** X11: when the content of the reply is a list of fragments and one of
    the fragments that are dicts has a "text" entry that is not a string,
    the tool fails with [TypeError], raised by the join. *)
Theorem ill_typed_fragment_raises
    (lab_text : str) (log : list Request) (parts : list json) :
  reply_content json_decode endpoint lab_text (JArray parts) ->
  forallb well_typed_fragment parts = false ->
  fst (summarize_lab_report json_decode endpoint lab_text log) = Raised TypeError.
Proof.
  intros R W. rewrite (run_reply_content _ R).
  now rewrite content_to_text_ill_typed.
Qed.

End ToolFurther.

(** X12: a reply that puts its payload between an opening marker with the
    tag (in any case, with any whitespace around) and a closing marker gives
    the same result as a reply that is the payload alone. *)
Theorem fenced_reply_gives_same_result
    (json_decode : str -> option json)
    (endpoint1 endpoint2 : Request -> result Response)
    (lab_text : str) (log : list Request) (w0 w1 tag t w4 : str) :
  reply_text json_decode endpoint1 lab_text
    (w0 ++ (fence ++ w1 ++ tag ++ t ++ fence) ++ w4) ->
  reply_text json_decode endpoint2 lab_text t ->
  blank w0 -> blank w1 -> blank w4 ->
  List.length tag = 4 -> begins_with_tag tag = true ->
  strip t <> [] -> startswith (strip t) fence = false ->
  fst (summarize_lab_report json_decode endpoint1 lab_text log)
  = fst (summarize_lab_report json_decode endpoint2 lab_text log).
Proof.
  intros R1 R2 B0 B1 B4 L T Hp F.
  rewrite (run_reply_text _ R1), (run_reply_text _ R2).
  rewrite (strip_code_fences_unfenced t F).
  now rewrite tagged_fence_sanitized.
Qed.

(** ** The further properties at concrete inputs *)

Lemma reply_text_chat_completion (s lab_text : str) :
  reference_decoder (chat_completion (JString s))
  = Some (chat_completion_data (JString s)) ->
  reply_text reference_decoder (replying 200 (chat_completion (JString s)))
    lab_text s.
Proof.
  intros D. exists (JString s). split; [|reflexivity].
  exists (chat_completion_data (JString s)). split; [|reflexivity].
  now apply reply_data_chat_completion.
Qed.

(** An upper-case tag, with whitespace at every place. *)
Lemma strip_code_fences_tagged_fence_witness :
  _strip_code_fences
    (lit "  " ++ (fence ++ lit " " ++ lit "JsOn" ++ (line_feed ++ lit "{}  ")
                  ++ fence) ++ line_feed)
  = lit "{}".
Proof.
  apply (@strip_code_fences_tagged_fence
           (lit "  ") (lit " ") (lit "JsOn") (line_feed ++ lit "{}  ")
           line_feed);
    try reflexivity.
  vm_compute. discriminate.
Defined.

(** A list between markers on one line. *)
Lemma strip_code_fences_plain_fence_witness :
  _strip_code_fences ([] ++ (fence ++ lit " [1] " ++ fence) ++ lit " ")
  = lit "[1]".
Proof.
  apply (@strip_code_fences_plain_fence [] (lit " [1] ") (lit " "));
    try reflexivity.
  vm_compute. discriminate.
Defined.

(** A reply cut short inside the object. *)
Lemma strip_code_fences_unclosed_fence_witness :
  _strip_code_fences
    ([] ++ fence ++ [] ++ lit "json" ++ (line_feed ++ lit "{ 1"))
  = lit "{ 1".
Proof.
  apply (proj1 (@strip_code_fences_unclosed_fence
                  [] [] (line_feed ++ lit "{ 1")
                  eq_refl eq_refl
                  ltac:(vm_compute; discriminate) eq_refl)
           (lit "json"));
    reflexivity.
Defined.


(** A successful status with an empty body. *)
Lemma body_not_json_raises_witness :
  fst (summarize_lab_report reference_decoder (replying 204 [])
         example_lab_text [])
  = Raised (RequestsJSONDecodeError []).
Proof.
  apply (@body_not_json_raises reference_decoder (replying 204 [])
           example_lab_text [] {| status_code := 204; text := [] |}).
  - reflexivity.
  - simpl. lia.
  - reflexivity.
Defined.

(** A reply whose content is null. *)
Lemma content_without_text_raises_witness :
  fst (summarize_lab_report reference_decoder
         (replying 200 (chat_completion JNull)) example_lab_text [])
  = Raised AttributeError.
Proof.
  apply content_without_text_raises with (content := JNull).
  - exists (chat_completion_data JNull). split; [|reflexivity].
    apply reply_data_chat_completion; vm_compute; reflexivity.
  - discriminate.
  - discriminate.
Defined.

(** A fragment whose text is null. *)
Lemma ill_typed_fragment_raises_witness :
  fst (summarize_lab_report reference_decoder
         (replying 200
            (chat_completion
               (JArray [ JObject [ (lit "type", JString (lit "image_url"));
                                   (lit "text", JNull) ] ])))
         example_lab_text [])
  = Raised TypeError.
Proof.
  apply ill_typed_fragment_raises
    with (parts := [ JObject [ (lit "type", JString (lit "image_url"));
                               (lit "text", JNull) ] ]).
  - exists (chat_completion_data
              (JArray [ JObject [ (lit "type", JString (lit "image_url"));
                                  (lit "text", JNull) ] ])).
    split; [|reflexivity].
    apply reply_data_chat_completion; vm_compute; reflexivity.
  - reflexivity.
Defined.

(** Scenario A, fenced and bare. *)
Lemma fenced_reply_gives_same_result_witness :
  fst (summarize_lab_report reference_decoder
         (replying 200
            (chat_completion
               (JString ([] ++ (fence ++ [] ++ lit "JSON" ++ scenario_A_text
                                ++ fence) ++ []))))
         example_lab_text [])
  = fst (summarize_lab_report reference_decoder
           (replying 200 (chat_completion (JString scenario_A_text)))
           example_lab_text []).
Proof.
  apply fenced_reply_gives_same_result
    with (w0 := []) (w1 := []) (tag := lit "JSON") (t := scenario_A_text)
         (w4 := []);
    try reflexivity.
  - apply reply_text_chat_completion. vm_compute. reflexivity.
  - apply reply_text_chat_completion. vm_compute. reflexivity.
  - vm_compute. discriminate.
Defined.
